(** * Average-cost ledger: [Investment] and [Portfolio]

    A shallow embedding of [src/investments/investment.py] and
    [src/investments/portfolio.py], and the properties of the ledger
    ("Position" and "Ledger" in the specification) checked against it.
    The loop of [src/compute_taxes.py] that feeds the ledger and the two
    simulations of [src/main.py] are embedded after it, with what they
    guarantee.

    Numbers.  The specification types every amount as a real; the program
    computes with Python floats, which are binary64 numbers.  The code is
    embedded twice, statement by statement the same.

    - On the canonical rationals [Qc] (the modules [Investment],
      [Portfolio] and what follows them).  This reading serves the
      properties that do not rest on how an amount is computed: which
      branch is taken, what is raised and when, which entries and records
      are written, and values given by the code's own expression.
    - On Rocq's primitive binary64 numbers (the module [Binary64]), whose
      operations are those of IEEE 754: each one rounds, overflows to an
      infinity, and yields NaN where the standard says so.  Every property
      that depends on the arithmetic (a cancellation, a sign, a sum) is
      stated and proved on this reading.

    Python's [/] raises [ZeroDivisionError] on a zero divisor; that is
    written out ([py_div]). *)

From Stdlib Require Import QArith Qcanon Ascii Floats.
From stdpp Require Import base option list numbers strings gmap fin_maps.

Local Open Scope Qc_scope.

(** ** Numbers *)

(** The rational [n/d] as a canonical rational. *)
Definition frac (n : Z) (d : positive) : Qc := Q2Qc (n # d).

(** ** Exceptions *)

(** The exceptions the two classes can raise, under the names the
    specification gives to the error kinds.

    - [InsufficientHoldings]: [ValueError("Cannot sell more than the current
      quantity owned.")] in [Investment.sell], and
      [ValueError(f"Not enough {from_asset} to complete the conversion.")]
      in [Portfolio.handle_conversion];
    - [MissingConversionTarget]:
      [ValueError("Conversion requires a 'to_asset' parameter.")];
    - [NoHoldings]:
      [ValueError(f"No holdings for asset {from_asset} to convert from.")];
    - [UnknownAction]: [ValueError("Invalid action. Must be 'buy', 'sell',
      'convert', or 'deposit'.")], the final [else] of the dispatch;
    - [ZeroDivisionError]: raised by Python's [/] itself;
    - [InvalidAction]: named by the specification; no [raise] of the source
      produces it. *)
Inductive Error : Type :=
  | InsufficientHoldings
  | InvalidAction
  | UnknownAction
  | MissingConversionTarget
  | NoHoldings
  | ZeroDivisionError.

#[global] Instance Error_eq_dec : EqDecision Error.
Proof. solve_decision. Defined.

(** Python's true division on numbers: raises on a zero divisor. *)
Definition py_div (x y : Qc) : Error + Qc :=
  if decide (y = 0) then inl ZeroDivisionError else inr (x / y).

(** ** [Investment] (investment.py) *)

Module Investment.

(** The attributes set by [__init__]. *)
Record t : Type := Build {
  quantity : Qc;
  total_cost : Qc;
  realized_profit_loss : list Qc
}.

(** [Investment()] *)
Definition init : t :=
  {| quantity := 0; total_cost := 0; realized_profit_loss := [] |}.

(** The [avg_price] property. *)
Definition avg_price (self : t) : Qc :=
  if decide (quantity self = 0) then 0
  else total_cost self / quantity self.

(** [buy(price, quantity, fee)]: never raises. *)
Definition buy (self : t) (price qty fee : Qc) : t :=
  let purchase_cost := price * qty + fee in
  {| quantity := quantity self + qty;
     total_cost := total_cost self + purchase_cost;
     realized_profit_loss := realized_profit_loss self |}.

(** [sell(price, quantity, fee)]: returns the object after the call and
    what the call returned or raised.  The [raise] is the first statement
    of the method, before any assignment. *)
Definition sell (self : t) (price qty fee : Qc) : t * (Error + Qc) :=
  if decide (quantity self < qty) then (self, inl InsufficientHoldings)
  else
    let sale_proceeds := price * qty - fee in
    let overhead_amount := avg_price self * qty in
    let profit_loss := sale_proceeds - overhead_amount in
    ({| quantity := quantity self - qty;
        total_cost := total_cost self - overhead_amount;
        realized_profit_loss := realized_profit_loss self ++ [profit_loss] |},
     inr profit_loss).

(** [total_realized_profit_loss()]: Python's [sum] starts from 0 and adds
    from the left. *)
Definition total_realized_profit_loss (self : t) : Qc :=
  foldl Qcplus 0 (realized_profit_loss self).

End Investment.

#[global] Instance Investment_eq_dec : EqDecision Investment.t.
Proof. solve_decision. Defined.

#[global] Instance Investment_inhabited : Inhabited Investment.t :=
  populate Investment.init.

(** ** Audit records *)

(** A timestamp is passed through and never inspected: [None] is Python's
    [None] (the default of [add_transaction]), [Some n] a point in time. *)
Definition Timestamp : Type := option Z.

Module Transaction.

(** The dict literals appended to [Portfolio.transactions]; the fields
    are the keys.  The two records written by [handle_conversion] have no
    ["to_asset"] key ([to_asset = None] here); the record written by
    [add_transaction] has it, with the argument's value, which may be
    Python's [None] ([Some None] here). *)
Record t : Type := Build {
  timestamp : Timestamp;
  action : string;
  asset : string;
  to_asset : option (option string);
  price : Qc;
  quantity : Qc;
  fee : Qc;
  transaction_currency : string
}.

End Transaction.

#[global] Instance Transaction_eq_dec : EqDecision Transaction.t.
Proof. solve_decision. Defined.

(** ** [Portfolio] (portfolio.py) *)

Module Portfolio.

(** The attributes set by [__init__]. *)
Record t : Type := Build {
  investments : gmap string Investment.t;
  base_currency : string;
  transactions : list Transaction.t
}.

(** [Portfolio(base_currency)] *)
Definition init (base_currency : string) : t :=
  {| investments := ∅; base_currency := base_currency; transactions := [] |}.

(** *** Methods as state transformers that may raise

    A method call maps the object before the call to the object after
    the call and either the returned value or the exception raised.  What
    was mutated before a [raise] stays mutated. *)
Definition M (A : Type) : Type := t → t * (Error + A).

#[global] Instance M_ret : MRet M := λ A x self, (self, inr x).
#[global] Instance M_bind : MBind M := λ A B f m self,
  match m self with
  | (self', inr x) => f x self'
  | (self', inl e) => (self', inl e)
  end.

Definition raise {A} (e : Error) : M A := λ self, (self, inl e).

(** [self.investments.get(k)] *)
Definition investments_get (k : string) : M (option Investment.t) :=
  λ self, (self, inr (investments self !! k)).

(** [self.investments[k] = inv] *)
Definition investments_set (k : string) (inv : Investment.t) : M unit :=
  λ self, (Build (<[k := inv]> (investments self)) (base_currency self)
                 (transactions self), inr tt).

(** [self.transactions.append(r)] *)
Definition transactions_append (r : Transaction.t) : M unit :=
  λ self, (Build (investments self) (base_currency self)
                 (transactions self ++ [r]), inr tt).

(** [self.base_currency] *)
Definition get_base_currency : M string :=
  λ self, (self, inr (base_currency self)).

(** *** Investment objects in the store

    An [Investment] object is created in one place only, right before it
    is stored under a key of [self.investments] that has no entry; no
    entry is ever removed or overwritten.  So an object is reachable
    through exactly one key, and a Python variable bound to
    [self.investments.get(k)] (or to the object just stored at [k]) is
    modelled by the key [k]: reading an attribute reads the entry at [k],
    a mutating method call updates the entry at [k].  Two variables bound
    through the same key ([from_investment] and [to_investment] when
    [from_asset == to_asset]) are one object, and see each other's
    updates.  Every use below comes after the entry at [k] was found or
    created. *)

(** [inv.quantity] for the object at [k] *)
Definition quantity_at (k : string) : M Qc :=
  λ self, (self, inr (Investment.quantity (investments self !!! k))).

(** [inv.avg_price] for the object at [k] *)
Definition avg_price_at (k : string) : M Qc :=
  λ self, (self, inr (Investment.avg_price (investments self !!! k))).

(** [inv.buy(price, qty, fee)] for the object at [k] *)
Definition buy_at (k : string) (price qty fee : Qc) : M unit :=
  λ self, investments_set k
            (Investment.buy (investments self !!! k) price qty fee) self.

(** [inv.sell(price, qty, fee)] for the object at [k] *)
Definition sell_at (k : string) (price qty fee : Qc) : M Qc :=
  λ self,
    let '(inv', r) := Investment.sell (investments self !!! k) price qty fee in
    (Build (<[k := inv']> (investments self)) (base_currency self)
           (transactions self), r).

(** [x / y] *)
Definition div (x y : Qc) : M Qc := λ self, (self, py_div x y).

(** *** [handle_conversion] *)
Definition handle_conversion (from_asset to_asset : string)
    (quantity price_in_base fee_in_base : Qc) (timestamp : Timestamp) : M unit :=
  from_investment ← investments_get from_asset;
  if from_investment is None then raise NoHoldings else
  let total_cost := price_in_base * quantity + fee_in_base in
  avg ← avg_price_at from_asset;
  quantity_to_sell ← div total_cost avg;
  held ← quantity_at from_asset;
  if decide (held < quantity_to_sell) then raise InsufficientHoldings else
  avg ← avg_price_at from_asset;
  profit_loss_sell ← sell_at from_asset avg quantity_to_sell fee_in_base;
  to_investment ← investments_get to_asset;
  (if to_investment is None
   then investments_set to_asset Investment.init else mret tt);;
  buy_at to_asset price_in_base quantity 0;;
  avg ← avg_price_at from_asset;
  currency ← get_base_currency;
  transactions_append
    {| Transaction.timestamp := timestamp;
       Transaction.action := "sell";
       Transaction.asset := from_asset;
       Transaction.to_asset := None;
       Transaction.price := avg;
       Transaction.quantity := quantity_to_sell;
       Transaction.fee := fee_in_base;
       Transaction.transaction_currency := currency |};;
  currency ← get_base_currency;
  transactions_append
    {| Transaction.timestamp := timestamp;
       Transaction.action := "buy";
       Transaction.asset := to_asset;
       Transaction.to_asset := None;
       Transaction.price := price_in_base;
       Transaction.quantity := quantity;
       Transaction.fee := 0;
       Transaction.transaction_currency := currency |}.

(** *** [add_transaction]

    [to_asset] is [None] or a string; [not to_asset] holds for [None] and
    for the empty string. *)
Definition add_transaction (action asset : string) (price quantity fee : Qc)
    (transaction_currency : string) (timestamp : Timestamp)
    (to_asset : option string) : M unit :=
  let price_in_base := price in
  let fee_in_base := fee in
  investment ← investments_get asset;
  (if investment is None
   then investments_set asset Investment.init else mret tt);;
  (if decide (action = "buy") then
     buy_at asset price_in_base quantity fee_in_base
   else if decide (action = "sell") then
     profit_loss ← sell_at asset price_in_base quantity fee_in_base;
     mret tt
   else if decide (action = "deposit") then
     buy_at asset 0 quantity 0
   else if decide (action = "convert") then
     match to_asset with
     | None => raise MissingConversionTarget
     | Some target =>
         if decide (target = "") then raise MissingConversionTarget
         else handle_conversion asset target quantity price_in_base
                                fee_in_base timestamp
     end
   else raise UnknownAction);;
  transactions_append
    {| Transaction.timestamp := timestamp;
       Transaction.action := action;
       Transaction.asset := asset;
       Transaction.to_asset := Some to_asset;
       Transaction.price := price_in_base;
       Transaction.quantity := quantity;
       Transaction.fee := fee_in_base;
       Transaction.transaction_currency := transaction_currency |}.

(** [get_investment(asset)] *)
Definition get_investment (self : t) (asset : string) : option Investment.t :=
  investments self !! asset.

End Portfolio.

#[global] Instance Portfolio_eq_dec : EqDecision Portfolio.t.
Proof. solve_decision. Defined.

(** ** The caller's sequence of calls (compute_taxes.py) *)

(** The arguments of one call of [add_transaction]. *)
Module Request.
Record t : Type := Build {
  action : string;
  asset : string;
  price : Qc;
  quantity : Qc;
  fee : Qc;
  transaction_currency : string;
  timestamp : Timestamp;
  to_asset : option string
}.
End Request.

(** [portfolio.add_transaction(action=..., ...)] *)
Definition call (self : Portfolio.t) (r : Request.t) : Portfolio.t * (Error + unit) :=
  Portfolio.add_transaction (Request.action r) (Request.asset r)
    (Request.price r) (Request.quantity r) (Request.fee r)
    (Request.transaction_currency r) (Request.timestamp r)
    (Request.to_asset r) self.

(** The portfolio after each call of a sequence of calls on one portfolio
    object.  A call that raises does not end the sequence: the caller
    in [compute_taxes.py] catches the exception and goes on with the next
    row, on the portfolio as the failed call left it. *)
Fixpoint states_after (self : Portfolio.t) (rs : list Request.t) :
    list Portfolio.t :=
  match rs with
  | [] => []
  | r :: rs' =>
      let self' := (call self r).1 in
      self' :: states_after self' rs'
  end.

(** ** [compute_taxes.py]: from rows to calls *)

(** [s.split(sep)] for a separator of one character: the pieces between
    the occurrences of [sep], empty pieces included, so that a string
    without [sep] (the empty string too) gives one piece.  Strings are
    sequences of bytes here; the separator used is the space, a byte that
    occurs in UTF-8 text only as itself. *)
Fixpoint split_on (sep : ascii) (s : string) : list string :=
  match s with
  | EmptyString => [EmptyString]
  | String c s' =>
      if Ascii.eqb c sep then EmptyString :: split_on sep s'
      else match split_on sep s' with
           | w :: ws => String c w :: ws
           | [] => [String c EmptyString]
           end
  end.

(** [extract_to_asset_from_notes(notes, from_asset)].  [notes] is [None]
    for a missing value (NaN or [None], for which [pd.isna] holds).
    ['to' in parts] and [parts.index('to')] look for the first piece equal
    to ["to"]. *)
Definition extract_to_asset_from_notes (notes : option string)
    (from_asset : string) : option string :=
  match notes with
  | None => None
  | Some notes =>
      if decide (notes = "") then None
      else
        let parts := split_on " " notes in
        if decide ("to" ∈ parts) then
          match list_find (λ part, part = "to") parts with
          | Some (to_index, _) =>
              if decide (to_index + 1 < length parts)%nat then
                match parts !! (to_index + 1)%nat with
                | Some to_asset =>
                    if decide (to_asset ≠ from_asset) then Some to_asset
                    else None
                | None => None
                end
              else None
          | None => None
          end
        else None
  end.

(** The columns of a row that [process_coinbase_csv] reads, once pandas
    has parsed the file and the ["kr"] amounts were cleaned: a number, or
    [None] for a missing value (NaN). *)
Module Row.
Record t : Type := Build {
  transaction_type : string;
  timestamp : Timestamp;
  asset : string;
  quantity_transacted : option Qc;
  price_at_transaction : option Qc;
  fees : option Qc;
  notes : option string
}.
End Row.

(** The body of the loop of [process_coinbase_csv] up to the [try]: the
    arguments [add_transaction] is called with for the row, or [None] when
    the row is skipped ([continue]). *)
Definition row_request (row : Row.t) : option Request.t :=
  match Row.quantity_transacted row with
  | None => None
  | Some quantity =>
      let price := default 0 (Row.price_at_transaction row) in
      let fee := default 0 (Row.fees row) in
      let transaction_type := Row.transaction_type row in
      let asset := Row.asset row in
      if decide (transaction_type ∈ ["Buy"; "Advanced Trade Buy"]) then
        Some (Request.Build "buy" asset price quantity fee "SEK"
                            (Row.timestamp row) None)
      else if decide (transaction_type ∈ ["Sell"; "Advanced Trade Sell"]) then
        Some (Request.Build "sell" asset price quantity fee "SEK"
                            (Row.timestamp row) None)
      else if decide (transaction_type = "Deposit") then
        if decide (asset = "SEK") then None
        else Some (Request.Build "deposit" asset 0 quantity 0 "SEK"
                                 (Row.timestamp row) None)
      else if decide (transaction_type = "Convert") then
        let to_asset := extract_to_asset_from_notes (Row.notes row) asset in
        match to_asset with
        | None => None
        | Some target =>
            if decide (target = "") then None
            else Some (Request.Build "convert" asset price quantity fee "SEK"
                                     (Row.timestamp row) to_asset)
        end
      else None
  end.

(** A word without a space. *)
Definition space_free (w : string) : Prop :=
  Forall (λ c, c ≠ " "%char) (String.list_ascii_of_string w).

(** * Notions used in the statements *)

Section notions.
Import Portfolio.
Implicit Types (self : Portfolio.t) (m : gmap string Investment.t).
Implicit Types (action asset target cur : string) (ts : Timestamp).
Implicit Types (price qty fee qts : Qc) (src : Investment.t).

(** The dict after "get the entry at [k], or create it". *)
Definition ensure_entry (k : string) m : gmap string Investment.t :=
  match m !! k with
  | Some _ => m
  | None => <[k := Investment.init]> m
  end.

(** The portfolio after the get-or-create that opens [add_transaction]. *)
Definition ensured (k : string) self : Portfolio.t :=
  Build (ensure_entry k (investments self)) (base_currency self)
        (transactions self).

(** The two records [handle_conversion] appends. *)
Definition sell_leg (from_asset : string) (avg qty fee : Qc) cur ts :
    Transaction.t :=
  Transaction.Build ts "sell" from_asset None avg qty fee cur.

Definition buy_leg target price qty cur ts : Transaction.t :=
  Transaction.Build ts "buy" target None price qty 0 cur.

(** The dict after both legs of a conversion that sells [qts] units of
    the object at [from_asset]. *)
Definition converted (from_asset target : string) (qts qty price fee : Qc) m :
    gmap string Investment.t :=
  let src := m !!! from_asset in
  let m1 := <[from_asset :=
                (Investment.sell src (Investment.avg_price src) qts fee).1]> m in
  let m2 := ensure_entry target m1 in
  <[target := Investment.buy (m2 !!! target) price qty 0]> m2.

(** The record [add_transaction] appends for the request itself. *)
Definition request_record action asset price qty fee cur ts
    (to_asset : option string) : Transaction.t :=
  Transaction.Build ts action asset (Some to_asset) price qty fee cur.

(** The source position once [qts] units have been sold from it at its own
    average price. *)
Definition sold_at_avg src (qts fee : Qc) : Investment.t :=
  {| Investment.quantity := Investment.quantity src - qts;
     Investment.total_cost :=
       Investment.total_cost src - Investment.avg_price src * qts;
     Investment.realized_profit_loss :=
       Investment.realized_profit_loss src
         ++ [Investment.avg_price src * qts - fee
             - Investment.avg_price src * qts] |}.

End notions.

(** ** The outcomes of one call *)

(** The position a call works on: the entry of the asset, or the empty
    [Investment] that the opening get-or-create stores for it. *)
Definition position (self : Portfolio.t) (asset : string) : Investment.t :=
  default Investment.init (Portfolio.investments self !! asset).

(** The portfolio once the object of [asset] has become [inv] and the
    records [recs] were appended. *)
Definition wrote (asset : string) (inv : Investment.t)
    (recs : list Transaction.t) (self : Portfolio.t) : Portfolio.t :=
  Portfolio.Build (<[asset := inv]> (ensure_entry asset (Portfolio.investments self)))
                  (Portfolio.base_currency self)
                  (Portfolio.transactions self ++ recs).

(** The paths through [add_transaction], each with the test that selects
    it and the portfolio and result it ends with. *)
Inductive call_view (action asset : string) (price qty fee : Qc) (cur : string)
    (ts : Timestamp) (to_asset : option string) (self : Portfolio.t) :
    Portfolio.t * (Error + unit) → Prop :=
  | View_buy :
      action = "buy" →
      call_view action asset price qty fee cur ts to_asset self
        (wrote asset (Investment.buy (position self asset) price qty fee)
               [request_record action asset price qty fee cur ts to_asset] self,
         inr tt)
  | View_sell :
      action = "sell" →
      ¬ Investment.quantity (position self asset) < qty →
      call_view action asset price qty fee cur ts to_asset self
        (wrote asset (Investment.sell (position self asset) price qty fee).1
               [request_record action asset price qty fee cur ts to_asset] self,
         inr tt)
  | View_oversell :
      action = "sell" →
      Investment.quantity (position self asset) < qty →
      call_view action asset price qty fee cur ts to_asset self
        (ensured asset self, inl InsufficientHoldings)
  | View_deposit :
      action = "deposit" →
      call_view action asset price qty fee cur ts to_asset self
        (wrote asset (Investment.buy (position self asset) 0 qty 0)
               [request_record action asset price qty fee cur ts to_asset] self,
         inr tt)
  | View_no_target :
      action = "convert" →
      to_asset = None ∨ to_asset = Some "" →
      call_view action asset price qty fee cur ts to_asset self
        (ensured asset self, inl MissingConversionTarget)
  | View_zero_division target :
      action = "convert" → to_asset = Some target → target ≠ "" →
      Investment.avg_price (position self asset) = 0 →
      call_view action asset price qty fee cur ts to_asset self
        (ensured asset self, inl ZeroDivisionError)
  | View_not_enough target :
      action = "convert" → to_asset = Some target → target ≠ "" →
      Investment.avg_price (position self asset) ≠ 0 →
      Investment.quantity (position self asset)
        < (price * qty + fee) / Investment.avg_price (position self asset) →
      call_view action asset price qty fee cur ts to_asset self
        (ensured asset self, inl InsufficientHoldings)
  | View_convert target :
      action = "convert" → to_asset = Some target → target ≠ "" →
      Investment.avg_price (position self asset) ≠ 0 →
      ¬ Investment.quantity (position self asset)
          < (price * qty + fee) / Investment.avg_price (position self asset) →
      let qts := (price * qty + fee) / Investment.avg_price (position self asset) in
      let m' := converted asset target qts qty price fee
                  (ensure_entry asset (Portfolio.investments self)) in
      call_view action asset price qty fee cur ts to_asset self
        (Portfolio.Build m' (Portfolio.base_currency self)
           (Portfolio.transactions self
              ++ [sell_leg asset (Investment.avg_price (m' !!! asset)) qts fee
                           (Portfolio.base_currency self) ts;
                  buy_leg target price qty (Portfolio.base_currency self) ts;
                  request_record action asset price qty fee cur ts to_asset]),
         inr tt)
  | View_unknown :
      action ≠ "buy" → action ≠ "sell" → action ≠ "deposit" →
      action ≠ "convert" →
      call_view action asset price qty fee cur ts to_asset self
        (ensured asset self, inl UnknownAction).

(** ** [main.py]: [compute_isk_tax] and [compute_isk]

    Both simulations start by computing
    [monthly_return = (1 + annual_return) ** (1 / 12) - 1], a twelfth
    root: the models take [monthly_return] as their first argument in
    place of [annual_return] and embed everything that follows.  What is
    proved of them holds for every monthly return, so for the one the code
    computes. *)

(** [max(a, b)] *)
Definition py_max (a b : Qc) : Qc := if decide (a < b) then b else a.

(** [sum(l)] *)
Definition py_sum (l : list Qc) : Qc := foldl Qcplus 0 l.

(** [compute_isk_tax]; [None] is the [AssertionError] of its [assert].
    The literals 0.01, 0.0125 and 0.3 are 1/100, 1/80 and 3/10. *)
Definition compute_isk_tax (quarterly_values : list Qc)
    (annual_deposits gov_interest_rate : Qc) : option Qc :=
  if decide (length quarterly_values = 4%nat) then
    let total_quarterly := py_sum quarterly_values in
    let average_value := (total_quarterly + annual_deposits) / Qc_of_Z 4 in
    let standard_rate := py_max (gov_interest_rate + frac 1 100) (frac 1 80) in
    let standard_income := average_value * standard_rate in
    let tax := standard_income * frac 3 10 in
    Some tax
  else None.

(** The variables of the loop of [compute_isk]. *)
Module Isk.
Record t : Type := Build {
  isk_value : Qc;
  isk_values : list Qc;
  quarterly_values : list Qc;
  annual_deposits : Qc;
  total_tax_paid : Qc;
  tax_paid_list : list Qc;
  total_invested : Qc;
  total_gains_list : list Qc
}.
End Isk.

(** One turn of the loop of [compute_isk], for [month]. *)
Definition isk_month (monthly_return monthly_investment gov_interest_rate : Qc)
    (month : nat) (st : Isk.t) : option Isk.t :=
  let quarterly_values :=
    if decide (((month - 1) mod 12)%nat ∈ [0; 3; 6; 9]%nat)
    then Isk.quarterly_values st ++ [Isk.isk_value st]
    else Isk.quarterly_values st in
  let isk_value := Isk.isk_value st + monthly_investment in
  let annual_deposits := Isk.annual_deposits st + monthly_investment in
  let total_invested := Isk.total_invested st + monthly_investment in
  let isk_value := isk_value * (1 + monthly_return) in
  '(isk_value, total_tax_paid, quarterly_values, annual_deposits) ←
    (if decide ((month mod 12)%nat = 0%nat) then
       tax ← compute_isk_tax quarterly_values annual_deposits gov_interest_rate;
       Some (isk_value - tax, Isk.total_tax_paid st + tax, [], 0)
     else
       Some (isk_value, Isk.total_tax_paid st, quarterly_values,
             annual_deposits));
  let total_gains := isk_value - total_invested in
  Some {| Isk.isk_value := isk_value;
          Isk.isk_values := Isk.isk_values st ++ [isk_value];
          Isk.quarterly_values := quarterly_values;
          Isk.annual_deposits := annual_deposits;
          Isk.total_tax_paid := total_tax_paid;
          Isk.tax_paid_list := Isk.tax_paid_list st ++ [total_tax_paid];
          Isk.total_invested := total_invested;
          Isk.total_gains_list := Isk.total_gains_list st ++ [total_gains] |}.

(** [for month in months: ...] *)
Fixpoint isk_loop (monthly_return monthly_investment gov_interest_rate : Qc)
    (months : list nat) (st : Isk.t) : option Isk.t :=
  match months with
  | [] => Some st
  | month :: months' =>
      st' ← isk_month monthly_return monthly_investment gov_interest_rate
                      month st;
      isk_loop monthly_return monthly_investment gov_interest_rate months' st'
  end.

(** [range(1, total_months + 1)] *)
Definition months_of (years : Z) : list nat := seq 1 (Z.to_nat (years * 12)).

(** [compute_isk], from its second statement on. *)
Definition compute_isk (monthly_return capital monthly_investment
    gov_interest_rate : Qc) (years : Z) :
    option (list Qc * list Qc * list Qc) :=
  let st :=
    {| Isk.isk_value := capital;
       Isk.isk_values := [capital];
       Isk.quarterly_values := [];
       Isk.annual_deposits := 0;
       Isk.total_tax_paid := 0;
       Isk.tax_paid_list := [0];
       Isk.total_invested := capital;
       Isk.total_gains_list := [0] |} in
  st' ← isk_loop monthly_return monthly_investment gov_interest_rate
                 (months_of years) st;
  Some (Isk.isk_values st', Isk.tax_paid_list st', Isk.total_gains_list st').

(** * The ledger on binary64 numbers

    The caller passes [float(...)] for every amount
    ([compute_taxes.py]), so the attributes of an [Investment] hold
    binary64 numbers: every [+], [-], [*] and [/] rounds to nearest even,
    overflows to an infinity, and gives NaN for [inf - inf], [inf / inf]
    and [0 * inf]; a comparison with NaN is false.  The module below is the
    same code as above read on Rocq's primitive binary64 numbers,
    statement by statement.  The [0] that [__init__] and [avg_price] write
    is Python's integer 0; in every operation with a float it acts as
    [0.0].  Python's float [/] raises [ZeroDivisionError] when the divisor
    compares equal to zero, [-0.0] included, and on no other operand. *)

Module Binary64.

Local Open Scope float_scope.

(** [x / y] *)
Definition py_div (x y : float) : Error + float :=
  if y =? 0 then inl ZeroDivisionError else inr (x / y).

(** *** [Investment] (investment.py) *)

Module Investment.

Record t : Type := Build {
  quantity : float;
  total_cost : float;
  realized_profit_loss : list float
}.

(** [Investment()] *)
Definition init : t :=
  {| quantity := 0; total_cost := 0; realized_profit_loss := [] |}.

(** The [avg_price] property. *)
Definition avg_price (self : t) : float :=
  if quantity self =? 0 then 0
  else total_cost self / quantity self.

(** [buy(price, quantity, fee)] *)
Definition buy (self : t) (price qty fee : float) : t :=
  let purchase_cost := price * qty + fee in
  {| quantity := quantity self + qty;
     total_cost := total_cost self + purchase_cost;
     realized_profit_loss := realized_profit_loss self |}.

(** [sell(price, quantity, fee)]; the test is [quantity > self.quantity]. *)
Definition sell (self : t) (price qty fee : float) : t * (Error + float) :=
  if quantity self <? qty then (self, inl InsufficientHoldings)
  else
    let sale_proceeds := price * qty - fee in
    let overhead_amount := avg_price self * qty in
    let profit_loss := sale_proceeds - overhead_amount in
    ({| quantity := quantity self - qty;
        total_cost := total_cost self - overhead_amount;
        realized_profit_loss := realized_profit_loss self ++ [profit_loss] |},
     inr profit_loss).

End Investment.

#[global] Instance Investment_inhabited : Inhabited Investment.t :=
  populate Investment.init.

(** *** Audit records *)

Module Transaction.

Record t : Type := Build {
  timestamp : Timestamp;
  action : string;
  asset : string;
  to_asset : option (option string);
  price : float;
  quantity : float;
  fee : float;
  transaction_currency : string
}.

End Transaction.

(** *** [Portfolio] (portfolio.py) *)

Module Portfolio.

Record t : Type := Build {
  investments : gmap string Investment.t;
  base_currency : string;
  transactions : list Transaction.t
}.

(** [Portfolio(base_currency)] *)
Definition init (base_currency : string) : t :=
  {| investments := ∅; base_currency := base_currency; transactions := [] |}.

(** Methods as state transformers that may raise, and objects referred
    to by their key in [self.investments], as above. *)
Definition M (A : Type) : Type := t → t * (Error + A).

#[global] Instance M_ret : MRet M := λ A x self, (self, inr x).
#[global] Instance M_bind : MBind M := λ A B f m self,
  match m self with
  | (self', inr x) => f x self'
  | (self', inl e) => (self', inl e)
  end.

Definition raise {A} (e : Error) : M A := λ self, (self, inl e).

(** [self.investments.get(k)] *)
Definition investments_get (k : string) : M (option Investment.t) :=
  λ self, (self, inr (investments self !! k)).

(** [self.investments[k] = inv] *)
Definition investments_set (k : string) (inv : Investment.t) : M unit :=
  λ self, (Build (<[k := inv]> (investments self)) (base_currency self)
                 (transactions self), inr tt).

(** [self.transactions.append(r)] *)
Definition transactions_append (r : Transaction.t) : M unit :=
  λ self, (Build (investments self) (base_currency self)
                 (transactions self ++ [r]), inr tt).

(** [self.base_currency] *)
Definition get_base_currency : M string :=
  λ self, (self, inr (base_currency self)).

(** [inv.quantity] for the object at [k] *)
Definition quantity_at (k : string) : M float :=
  λ self, (self, inr (Investment.quantity (investments self !!! k))).

(** [inv.avg_price] for the object at [k] *)
Definition avg_price_at (k : string) : M float :=
  λ self, (self, inr (Investment.avg_price (investments self !!! k))).

(** [inv.buy(price, qty, fee)] for the object at [k] *)
Definition buy_at (k : string) (price qty fee : float) : M unit :=
  λ self, investments_set k
            (Investment.buy (investments self !!! k) price qty fee) self.

(** [inv.sell(price, qty, fee)] for the object at [k] *)
Definition sell_at (k : string) (price qty fee : float) : M float :=
  λ self,
    let '(inv', r) := Investment.sell (investments self !!! k) price qty fee in
    (Build (<[k := inv']> (investments self)) (base_currency self)
           (transactions self), r).

(** [x / y] *)
Definition div (x y : float) : M float := λ self, (self, py_div x y).

(** [handle_conversion]; the second test is
    [quantity_to_sell > from_investment.quantity]. *)
Definition handle_conversion (from_asset to_asset : string)
    (quantity price_in_base fee_in_base : float) (timestamp : Timestamp) :
    M unit :=
  from_investment ← investments_get from_asset;
  if from_investment is None then raise NoHoldings else
  let total_cost := price_in_base * quantity + fee_in_base in
  avg ← avg_price_at from_asset;
  quantity_to_sell ← div total_cost avg;
  held ← quantity_at from_asset;
  if held <? quantity_to_sell then raise InsufficientHoldings else
  avg ← avg_price_at from_asset;
  profit_loss_sell ← sell_at from_asset avg quantity_to_sell fee_in_base;
  to_investment ← investments_get to_asset;
  (if to_investment is None
   then investments_set to_asset Investment.init else mret tt);;
  buy_at to_asset price_in_base quantity 0;;
  avg ← avg_price_at from_asset;
  currency ← get_base_currency;
  transactions_append
    {| Transaction.timestamp := timestamp;
       Transaction.action := "sell";
       Transaction.asset := from_asset;
       Transaction.to_asset := None;
       Transaction.price := avg;
       Transaction.quantity := quantity_to_sell;
       Transaction.fee := fee_in_base;
       Transaction.transaction_currency := currency |};;
  currency ← get_base_currency;
  transactions_append
    {| Transaction.timestamp := timestamp;
       Transaction.action := "buy";
       Transaction.asset := to_asset;
       Transaction.to_asset := None;
       Transaction.price := price_in_base;
       Transaction.quantity := quantity;
       Transaction.fee := 0;
       Transaction.transaction_currency := currency |}.

(** [add_transaction] *)
Definition add_transaction (action asset : string) (price quantity fee : float)
    (transaction_currency : string) (timestamp : Timestamp)
    (to_asset : option string) : M unit :=
  let price_in_base := price in
  let fee_in_base := fee in
  investment ← investments_get asset;
  (if investment is None
   then investments_set asset Investment.init else mret tt);;
  (if decide (action = "buy") then
     buy_at asset price_in_base quantity fee_in_base
   else if decide (action = "sell") then
     profit_loss ← sell_at asset price_in_base quantity fee_in_base;
     mret tt
   else if decide (action = "deposit") then
     buy_at asset 0 quantity 0
   else if decide (action = "convert") then
     match to_asset with
     | None => raise MissingConversionTarget
     | Some target =>
         if decide (target = "") then raise MissingConversionTarget
         else handle_conversion asset target quantity price_in_base
                                fee_in_base timestamp
     end
   else raise UnknownAction);;
  transactions_append
    {| Transaction.timestamp := timestamp;
       Transaction.action := action;
       Transaction.asset := asset;
       Transaction.to_asset := Some to_asset;
       Transaction.price := price_in_base;
       Transaction.quantity := quantity;
       Transaction.fee := fee_in_base;
       Transaction.transaction_currency := transaction_currency |}.

End Portfolio.

(** *** The caller's sequence of calls *)

Module Request.
Record t : Type := Build {
  action : string;
  asset : string;
  price : float;
  quantity : float;
  fee : float;
  transaction_currency : string;
  timestamp : Timestamp;
  to_asset : option string
}.
End Request.

(** [portfolio.add_transaction(action=..., ...)] *)
Definition call (self : Portfolio.t) (r : Request.t) :
    Portfolio.t * (Error + unit) :=
  Portfolio.add_transaction (Request.action r) (Request.asset r)
    (Request.price r) (Request.quantity r) (Request.fee r)
    (Request.transaction_currency r) (Request.timestamp r)
    (Request.to_asset r) self.

(** The portfolio after each call of a sequence; a call that raises is
    caught by the caller, which goes on with the next one. *)
Fixpoint states_after (self : Portfolio.t) (rs : list Request.t) :
    list Portfolio.t :=
  match rs with
  | [] => []
  | r :: rs' =>
      let self' := (call self r).1 in
      self' :: states_after self' rs'
  end.

(** *** [compute_taxes.py]: from rows to calls

    The columns that [process_coinbase_csv] reads are columns of floats,
    in which pandas writes NaN for a missing value: [pd.isna] is the test
    for NaN. *)
Module Row.
Record t : Type := Build {
  transaction_type : string;
  timestamp : Timestamp;
  asset : string;
  quantity_transacted : float;
  price_at_transaction : float;
  fees : float;
  notes : option string
}.
End Row.

(** The body of the loop up to the [try]: the arguments of the call of
    [add_transaction] for the row, or [None] when the row is skipped. *)
Definition row_request (row : Row.t) : option Request.t :=
  if is_nan (Row.quantity_transacted row) then None
  else
    let quantity := Row.quantity_transacted row in
    let price :=
      if is_nan (Row.price_at_transaction row) then 0
      else Row.price_at_transaction row in
    let fee := if is_nan (Row.fees row) then 0 else Row.fees row in
    let transaction_type := Row.transaction_type row in
    let asset := Row.asset row in
    if decide (transaction_type ∈ ["Buy"; "Advanced Trade Buy"]) then
      Some (Request.Build "buy" asset price quantity fee "SEK"
                          (Row.timestamp row) None)
    else if decide (transaction_type ∈ ["Sell"; "Advanced Trade Sell"]) then
      Some (Request.Build "sell" asset price quantity fee "SEK"
                          (Row.timestamp row) None)
    else if decide (transaction_type = "Deposit") then
      if decide (asset = "SEK") then None
      else Some (Request.Build "deposit" asset 0 quantity 0 "SEK"
                               (Row.timestamp row) None)
    else if decide (transaction_type = "Convert") then
      let to_asset := extract_to_asset_from_notes (Row.notes row) asset in
      match to_asset with
      | None => None
      | Some target =>
          if decide (target = "") then None
          else Some (Request.Build "convert" asset price quantity fee "SEK"
                                   (Row.timestamp row) to_asset)
      end
    else None.

(** The loop over the rows: the portfolio after each row.  A skipped row
    leaves the portfolio as it is; an exception of [add_transaction] is
    caught and the loop goes on. *)
Fixpoint process_rows (portfolio : Portfolio.t) (rows : list Row.t) :
    list Portfolio.t :=
  match rows with
  | [] => []
  | row :: rows' =>
      let portfolio' :=
        match row_request row with
        | Some r => (call portfolio r).1
        | None => portfolio
        end in
      portfolio' :: process_rows portfolio' rows'
  end.

(** *** Notions used in the statements *)

(** The input preconditions of the specification: a quantity above 0, a
    price and a fee not below 0. *)
Definition well_formed (r : Request.t) : Prop :=
  (0 <? Request.quantity r) = true ∧
  (0 <=? Request.price r) = true ∧
  (0 <=? Request.fee r) = true.

(** The quantity of the position is not below 0: it is [>= 0], or it is
    NaN. *)
Definition not_negative (inv : Investment.t) : Prop :=
  (0 <=? Investment.quantity inv) = true ∨
  is_nan (Investment.quantity inv) = true.

Definition holdings_not_negative (self : Portfolio.t) : Prop :=
  map_Forall (λ _ inv, not_negative inv) (Portfolio.investments self).

(** The dict after "get the entry at [k], or create it". *)
Definition ensure_entry (k : string) (m : gmap string Investment.t) :
    gmap string Investment.t :=
  match m !! k with
  | Some _ => m
  | None => <[k := Investment.init]> m
  end.

(** The dict after both legs of a conversion that sells [sold] units of
    the object at [from_asset]. *)
Definition converted (from_asset target : string)
    (sold qty price fee : float) (m : gmap string Investment.t) :
    gmap string Investment.t :=
  let src := m !!! from_asset in
  let m1 := <[from_asset :=
                (Investment.sell src (Investment.avg_price src) sold fee).1]> m in
  let m2 := ensure_entry target m1 in
  <[target := Investment.buy (m2 !!! target) price qty 0]> m2.

(** A method that keeps a property of the portfolio, whether it returns
    or raises. *)
Definition keeps (I : Portfolio.t → Prop) {A} (m : Portfolio.M A) : Prop :=
  ∀ self, I self → I (m self).1.

(** [float("0.1")] and [float("1e308")] *)
Definition tenth : float := 0x1.999999999999ap-4.
Definition huge : float := 0x1.1ccf385ebc8ap+1023.

(** A buy, an oversell that raises, a conversion, a deposit, a sale of
    everything left, and an action that does not exist. *)
Definition sample_requests : list Request.t :=
  [ Request.Build "buy" "BTC" 100 10 5 "SEK" None None;
    Request.Build "sell" "BTC" 120 20 3 "SEK" None None;
    Request.Build "convert" "BTC" 300 2 0 "SEK" None (Some "ETH");
    Request.Build "deposit" "SOL" 0 4 0 "SEK" None None;
    Request.Build "sell" "ETH" 310 2 1 "SEK" None None;
    Request.Build "swap" "ETH" 310 2 1 "SEK" None None ].

(** *** [main.py]: the two simulations

    As above, from the second statement of each function on, with
    [monthly_return] as an argument.  [capital], [monthly_investment] and
    the rates are the floats that [main] passes. *)

(** [max(a, b)]: [b] when [b > a], else [a]. *)
Definition py_max (a b : float) : float := if a <? b then b else a.

(** [sum(l)]: from Python's integer 0, adding from the left. *)
Definition py_sum (l : list float) : float := foldl add 0 l.

(** The literals [0.01], [0.0125] and [0.3]. *)
Definition lit_0_01 : float := 0x1.47ae147ae147bp-7.
Definition lit_0_0125 : float := 0x1.999999999999ap-7.
Definition lit_0_3 : float := 0x1.3333333333333p-2.

(** [compute_isk_tax]; [None] is the [AssertionError] of its [assert]. *)
Definition compute_isk_tax (quarterly_values : list float)
    (annual_deposits gov_interest_rate : float) : option float :=
  if decide (length quarterly_values = 4%nat) then
    let total_quarterly := py_sum quarterly_values in
    let average_value := (total_quarterly + annual_deposits) / 4 in
    let standard_rate := py_max (gov_interest_rate + lit_0_01) lit_0_0125 in
    let standard_income := average_value * standard_rate in
    let tax := standard_income * lit_0_3 in
    Some tax
  else None.

(** The variables of the loop of [compute_isk]. *)
Module Isk.
Record t : Type := Build {
  isk_value : float;
  isk_values : list float;
  quarterly_values : list float;
  annual_deposits : float;
  total_tax_paid : float;
  tax_paid_list : list float;
  total_invested : float;
  total_gains_list : list float
}.
End Isk.

(** One turn of the loop of [compute_isk], for [month]. *)
Definition isk_month (monthly_return monthly_investment gov_interest_rate : float)
    (month : nat) (st : Isk.t) : option Isk.t :=
  let quarterly_values :=
    if decide (((month - 1) mod 12)%nat ∈ [0; 3; 6; 9]%nat)
    then Isk.quarterly_values st ++ [Isk.isk_value st]
    else Isk.quarterly_values st in
  let isk_value := Isk.isk_value st + monthly_investment in
  let annual_deposits := Isk.annual_deposits st + monthly_investment in
  let total_invested := Isk.total_invested st + monthly_investment in
  let isk_value := isk_value * (1 + monthly_return) in
  '(isk_value, total_tax_paid, quarterly_values, annual_deposits) ←
    (if decide ((month mod 12)%nat = 0%nat) then
       tax ← compute_isk_tax quarterly_values annual_deposits gov_interest_rate;
       Some (isk_value - tax, Isk.total_tax_paid st + tax, [], 0)
     else
       Some (isk_value, Isk.total_tax_paid st, quarterly_values,
             annual_deposits));
  let total_gains := isk_value - total_invested in
  Some {| Isk.isk_value := isk_value;
          Isk.isk_values := Isk.isk_values st ++ [isk_value];
          Isk.quarterly_values := quarterly_values;
          Isk.annual_deposits := annual_deposits;
          Isk.total_tax_paid := total_tax_paid;
          Isk.tax_paid_list := Isk.tax_paid_list st ++ [total_tax_paid];
          Isk.total_invested := total_invested;
          Isk.total_gains_list := Isk.total_gains_list st ++ [total_gains] |}.

(** [for month in months: ...] *)
Fixpoint isk_loop (monthly_return monthly_investment gov_interest_rate : float)
    (months : list nat) (st : Isk.t) : option Isk.t :=
  match months with
  | [] => Some st
  | month :: months' =>
      st' ← isk_month monthly_return monthly_investment gov_interest_rate
                      month st;
      isk_loop monthly_return monthly_investment gov_interest_rate months' st'
  end.

(** [compute_isk], from its second statement on. *)
Definition compute_isk (monthly_return capital monthly_investment
    gov_interest_rate : float) (years : Z) :
    option (list float * list float * list float) :=
  let st :=
    {| Isk.isk_value := capital;
       Isk.isk_values := [capital];
       Isk.quarterly_values := [];
       Isk.annual_deposits := 0;
       Isk.total_tax_paid := 0;
       Isk.tax_paid_list := [0];
       Isk.total_invested := capital;
       Isk.total_gains_list := [0] |} in
  st' ← isk_loop monthly_return monthly_investment gov_interest_rate
                 (months_of years) st;
  Some (Isk.isk_values st', Isk.tax_paid_list st', Isk.total_gains_list st').

(** The variables of the loop of [compute_af]. *)
Module Af.
Record t : Type := Build {
  af_value : float;
  af_values : list float;
  total_invested : float;
  total_gains_list : list float;
  tax_paid_list : list float
}.
End Af.

(** One turn of the loop of [compute_af]; [total_tax_paid] is not assigned
    in the loop. *)
Definition af_month (monthly_return monthly_investment total_tax_paid : float)
    (st : Af.t) : Af.t :=
  let af_value := Af.af_value st + monthly_investment in
  let total_invested := Af.total_invested st + monthly_investment in
  let af_value := af_value * (1 + monthly_return) in
  let total_gains := af_value - total_invested in
  {| Af.af_value := af_value;
     Af.af_values := Af.af_values st ++ [af_value];
     Af.total_invested := total_invested;
     Af.total_gains_list := Af.total_gains_list st ++ [total_gains];
     Af.tax_paid_list := Af.tax_paid_list st ++ [total_tax_paid] |}.

(** [l[-1] = x]; [None] is the [IndexError] of an empty list. *)
Definition set_last (l : list float) (x : float) : option (list float) :=
  match l with
  | [] => None
  | _ :: _ => Some (<[pred (length l) := x]> l)
  end.

(** The variables of [compute_af] when its loop ends. *)
Definition af_loop (monthly_return capital monthly_investment : float)
    (years : Z) : Af.t :=
  let total_tax_paid := 0 in
  foldl (λ st (month : nat),
           af_month monthly_return monthly_investment total_tax_paid st)
        {| Af.af_value := capital;
           Af.af_values := [capital];
           Af.total_invested := capital;
           Af.total_gains_list := [0];
           Af.tax_paid_list := [0] |}
        (months_of years).

(** [compute_af], from its second statement on. *)
Definition compute_af (monthly_return capital monthly_investment
    af_tax_rate : float) (years : Z) :
    option (list float * list float * list float) :=
  let total_tax_paid := 0 in
  let st := af_loop monthly_return capital monthly_investment years in
  let total_gain := Af.af_value st - Af.total_invested st in
  let af_tax := total_gain * af_tax_rate in
  let af_value_after_tax := Af.af_value st - af_tax in
  let total_tax_paid := total_tax_paid + af_tax in
  af_values ← set_last (Af.af_values st) af_value_after_tax;
  tax_paid_list ← set_last (Af.tax_paid_list st) total_tax_paid;
  total_gains_list ←
    set_last (Af.total_gains_list st)
             (af_value_after_tax - Af.total_invested st);
  Some (af_values, tax_paid_list, total_gains_list).

(** What has been invested after [i] months: the capital, with the monthly
    investment added [i] times, one addition a month. *)
Definition invested_after (capital monthly_investment : float) (i : nat) :
    float :=
  Nat.iter i (λ total_invested, total_invested + monthly_investment) capital.

(** A purchase, a row without quantity, a sale of more than is held, and a
    conversion. *)
Definition sample_rows : list Row.t :=
  [ Row.Build "Buy" (Some 1%Z) "BTC" 2 1000 1 None;
    Row.Build "Deposit" (Some 2%Z) "SEK" nan nan nan None;
    Row.Build "Sell" (Some 3%Z) "BTC" 5 1100 nan None;
    Row.Build "Convert" (Some 4%Z) "BTC" 3 300 nan
              (Some "Converted BTC to ETH") ].

(** What holds of the variables of the loop of [compute_isk] after [k]
    months. *)
Definition isk_inv (capital monthly_investment : float) (k : nat)
    (st : Isk.t) : Prop :=
  length (Isk.isk_values st) = S k ∧
  length (Isk.tax_paid_list st) = S k ∧
  length (Isk.total_gains_list st) = S k ∧
  length (Isk.quarterly_values st) = ((k mod 12 + 2) / 3)%nat ∧
  Isk.total_invested st = invested_after capital monthly_investment k ∧
  Isk.total_gains_list st !! 0%nat = Some 0 ∧
  (∀ i v g, (1 ≤ i)%nat →
            Isk.isk_values st !! i = Some v →
            Isk.total_gains_list st !! i = Some g →
            g = v - invested_after capital monthly_investment i).


End Binary64.

(** * Properties *)

(** ** Arithmetic on [Qc] used below *)

Lemma Qc_pos_le_nonzero (x q : Qc) : 0 < x → x ≤ q → q ≠ 0.
Proof.
  intros Hx Hle ->. by apply (Qcle_not_lt _ _ Hle).
Qed.



(** ** Arithmetic on binary64 used below

    From the specification of the primitive operations ([FloatAxioms]):
    each one is the operation of [SpecFloat] on the decoded operands. *)

Section binary64.
Local Open Scope float_scope.
Implicit Types x y q f : float.

Lemma Prim2SF_zero : Prim2SF 0 = S754_zero false.
Proof. reflexivity. Qed.

Lemma Prim2SF_infinity : Prim2SF infinity = S754_infinity false.
Proof. reflexivity. Qed.

Lemma digits2_pos_bounds (m : positive) :
  (2 ^ (Z.pos (digits2_pos m) - 1) ≤ Z.pos m < 2 ^ Z.pos (digits2_pos m))%Z.
Proof.
  induction m as [m IH|m IH|]; simpl digits2_pos.
  - rewrite Pos2Z.inj_succ, Z.pow_succ_r by lia.
    replace (Z.succ (Z.pos (digits2_pos m)) - 1)%Z
      with (Z.succ (Z.pos (digits2_pos m) - 1)) by lia.
    rewrite Z.pow_succ_r by lia. lia.
  - rewrite Pos2Z.inj_succ, Z.pow_succ_r by lia.
    replace (Z.succ (Z.pos (digits2_pos m)) - 1)%Z
      with (Z.succ (Z.pos (digits2_pos m) - 1)) by lia.
    rewrite Z.pow_succ_r by lia. lia.
  - simpl. lia.
Qed.

Lemma iter_xO_double (d m : positive) :
  (2 * Z.pos m ≤ Z.pos (Pos.iter xO m d))%Z.
Proof.
  induction d as [|d IH] using Pos.peano_ind.
  - simpl. lia.
  - rewrite Pos.iter_succ. lia.
Qed.

Lemma shl_align_same (m : positive) (e : Z) : shl_align m e e = (m, e).
Proof. unfold shl_align. by rewrite Z.sub_diag. Qed.

(** Rounding a positive number gives nothing below zero: a zero, a
    positive number, or [+inf]. *)
Lemma binary_round_not_below (m : positive) (e : Z) :
  SFltb (binary_round prec emax false m e) (S754_zero false) = false.
Proof.
  unfold binary_round, binary_round_aux.
  destruct (shl_align _ _ _) as [mz ez].
  destruct (shr_fexp _ _ _ _ _) as [mrs' e'].
  destruct (shr_fexp _ _ _ _ _) as [mrs'' e''].
  destruct (shr_m mrs''); [done| |done].
  by destruct (_ <=? _)%Z.
Qed.

Lemma binary_normalize_not_below (z e : Z) :
  (0 ≤ z)%Z →
  SFltb (binary_normalize prec emax z e false) (S754_zero false) = false.
Proof.
  intros Hz. destruct z; [done| |lia].
  apply binary_round_not_below.
Qed.

(** Of two positive numbers in canonical form, the one that is not the
    smaller has the mantissa that is not the smaller, once both are brought
    to the smaller of the two exponents. *)
Lemma aligned_mantissa_ge (m1 m2 : positive) (e1 e2 : Z) :
  valid_binary (S754_finite false m1 e1) = true →
  valid_binary (S754_finite false m2 e2) = true →
  SFltb (S754_finite false m1 e1) (S754_finite false m2 e2) = false →
  (Z.pos (shl_align m2 e2 (Z.min e1 e2)).1
     ≤ Z.pos (shl_align m1 e1 (Z.min e1 e2)).1)%Z.
Proof.
  unfold SpecFloat.valid_binary, bounded, canonical_mantissa, fexp,
    SFltb, SFcompare.
  intros [Hc1 _]%andb_prop [Hc2 _]%andb_prop.
  apply Z.eqb_eq in Hc1, Hc2.
  destruct (Z.compare_spec e1 e2) as [->|Hlt|Hgt]; [|done|].
  - rewrite Z.min_id, !shl_align_same. simpl.
    change (Pos.compare_cont Eq m1 m2) with (Pos.compare m1 m2).
    destruct (Pos.compare_spec m1 m2); [lia|done|lia].
  - intros _. rewrite Z.min_r by lia. rewrite shl_align_same. simpl.
    unfold shl_align. destruct (e2 - e1)%Z as [|d|d] eqn:Hd; try lia. simpl.
    pose proof (iter_xO_double d m1).
    pose proof (digits2_pos_bounds m1) as [Hm1 _].
    pose proof (digits2_pos_bounds m2) as [_ Hm2].
    unfold emin, prec, emax in *.
    assert (Z.pos (digits2_pos m1) = 53%Z) as Heq by lia.
    rewrite Heq in Hm1.
    assert (Z.pos (digits2_pos m2) ≤ 53)%Z as Hle by lia.
    assert (2 ^ Z.pos (digits2_pos m2) ≤ 2 ^ 53)%Z
      by (apply Z.pow_le_mono_r; lia).
    change (2 ^ (53 - 1))%Z with 4503599627370496%Z in Hm1.
    change (2 ^ 53)%Z with 9007199254740992%Z in *.
    lia.
Qed.

Lemma ltb_zero_false q :
  (q <? 0) = false ↔
  match Prim2SF q with
  | S754_finite true _ _ | S754_infinity true => False
  | _ => True
  end.
Proof.
  rewrite FloatAxioms.ltb_spec, Prim2SF_zero. unfold SFltb, SFcompare.
  destruct (Prim2SF q) as [[]|[]| |[] m e]; simpl; intuition congruence.
Qed.

Lemma zero_ltb_true x :
  (0 <? x) = true ↔
  match Prim2SF x with
  | S754_finite false _ _ | S754_infinity false => True
  | _ => False
  end.
Proof.
  rewrite FloatAxioms.ltb_spec, Prim2SF_zero. unfold SFltb, SFcompare.
  destruct (Prim2SF x) as [[]|[]| |[] m e]; simpl; intuition congruence.
Qed.

(** "Not below zero" is ">= 0 or NaN". *)
Lemma ltb_zero_false_iff q :
  (q <? 0) = false ↔ (0 <=? q) = true ∨ is_nan q = true.
Proof.
  rewrite ltb_zero_false. unfold is_nan.
  rewrite FloatAxioms.leb_spec, FloatAxioms.eqb_spec, Prim2SF_zero. unfold SFleb, SFeqb, SFcompare.
  destruct (Prim2SF q) as [[]|[]| |[] m e]; simpl;
    rewrite ?Z.compare_refl, ?Pos.compare_cont_refl; simpl;
    intuition congruence.
Qed.

Lemma is_finite_spec x :
  is_finite x = true ↔
  match Prim2SF x with
  | S754_zero _ | S754_finite _ _ _ => True
  | _ => False
  end.
Proof.
  unfold is_finite, is_nan, is_infinity.
  rewrite !FloatAxioms.eqb_spec, FloatAxioms.abs_spec, Prim2SF_infinity. unfold SFeqb, SFcompare.
  destruct (Prim2SF x) as [[]|[]| |[] m e]; simpl;
    rewrite ?Z.compare_refl, ?Pos.compare_cont_refl; simpl;
    intuition congruence.
Qed.

Lemma eqb_zero_true f :
  (f =? 0) = true ↔ ∃ s, Prim2SF f = S754_zero s.
Proof.
  rewrite FloatAxioms.eqb_spec, Prim2SF_zero. unfold SFeqb, SFcompare.
  destruct (Prim2SF f) as [s|[]| |[] m e]; simpl; split;
    try done; try (intros [? ?]; done).
  by exists s.
Qed.

(** [q - x] is not below zero when [q] is not and [x] is not above [q]. *)
Lemma sub_not_below q x :
  (q <? 0) = false → (q <? x) = false → (q - x <? 0) = false.
Proof.
  intros Hq. apply ltb_zero_false in Hq.
  rewrite !FloatAxioms.ltb_spec, FloatAxioms.sub_spec, Prim2SF_zero.
  pose proof (Prim2SF_valid q) as Vq. pose proof (Prim2SF_valid x) as Vx.
  destruct (Prim2SF q) as [sq|[]| |[] mq eq]; try done;
    destruct (Prim2SF x) as [sx|[]| |sx mx ex]; try done;
    try (by destruct sx); try (by destruct sq, sx).
  destruct sx; intros H; unfold SF64sub, SFsub; cbv zeta;
    apply binary_normalize_not_below.
  - simpl. lia.
  - pose proof (aligned_mantissa_ge _ _ _ _ Vq Vx H). simpl. lia.
Qed.

(** [q + x] is not below zero when [q] is not and [x] is above zero. *)
Lemma add_not_below q x :
  (q <? 0) = false → (0 <? x) = true → (q + x <? 0) = false.
Proof.
  intros Hq Hx. apply ltb_zero_false in Hq. apply zero_ltb_true in Hx.
  rewrite FloatAxioms.ltb_spec, FloatAxioms.add_spec, Prim2SF_zero.
  destruct (Prim2SF q) as [sq|[]| |[] mq eq]; try done;
    destruct (Prim2SF x) as [sx|[]| |[] mx ex]; try done;
    try (by destruct sq).
  unfold SF64add, SFadd; cbv zeta.
  apply binary_normalize_not_below. simpl. lia.
Qed.

Lemma ltb_irrefl x : (x <? x) = false.
Proof.
  rewrite FloatAxioms.ltb_spec. unfold SFltb, SFcompare.
  destruct (Prim2SF x) as [[]|[]| |[] m e]; simpl;
    by rewrite ?Z.compare_refl, ?Pos.compare_cont_refl.
Qed.

Lemma eqb_zero_refl : (0 =? 0) = true.
Proof. reflexivity. Qed.

(** A finite number minus itself is [+0]. *)
Lemma sub_diag_finite x : is_finite x = true → x - x = 0.
Proof.
  intros Hx. apply is_finite_spec in Hx.
  apply Prim2SF_inj. rewrite FloatAxioms.sub_spec, Prim2SF_zero.
  destruct (Prim2SF x) as [[]|[]| |s m e]; try done.
  unfold SF64sub, SFsub. cbv zeta. by rewrite Z.sub_diag.
Qed.

(** Taking a zero fee off a finite amount and then the amount itself
    leaves [+0]. *)
Lemma sub_zero_sub_finite x f :
  (f =? 0) = true → is_finite x = true → (x - f) - x = 0.
Proof.
  intros [sf Hf]%eqb_zero_true Hx. apply is_finite_spec in Hx.
  apply Prim2SF_inj. rewrite !FloatAxioms.sub_spec, Prim2SF_zero, Hf.
  destruct (Prim2SF x) as [sx|[]| |s m e]; try done.
  - by destruct sx, sf.
  - unfold SF64sub, SFsub. cbv zeta. by rewrite Z.sub_diag.
Qed.

(** The same on an amount that is infinite or NaN gives NaN. *)
Lemma sub_zero_sub_not_finite x f :
  (f =? 0) = true → is_finite x = false → (x - f) - x = nan.
Proof.
  intros [sf Hf]%eqb_zero_true Hx.
  apply Prim2SF_inj. rewrite !FloatAxioms.sub_spec, Hf.
  assert (¬ is_finite x = true) as Hx' by (by rewrite Hx).
  rewrite is_finite_spec in Hx'.
  destruct (Prim2SF x) as [sx|[]| |s m e]; try done; by destruct Hx'.
Qed.

End binary64.

(** ** [Investment] *)

Section investment.
Import Investment.
Implicit Types (self : Investment.t) (price qty fee : Qc).

Lemma avg_price_held self :
  quantity self ≠ 0 → avg_price self = total_cost self / quantity self.
Proof. intros H. unfold avg_price. by case_decide. Qed.

Lemma avg_price_empty self : quantity self = 0 → avg_price self = 0.
Proof. intros H. unfold avg_price. by case_decide. Qed.

Lemma sell_ok self price qty fee :
  ¬ quantity self < qty →
  sell self price qty fee =
    ({| quantity := quantity self - qty;
        total_cost := total_cost self - avg_price self * qty;
        realized_profit_loss :=
          realized_profit_loss self
            ++ [price * qty - fee - avg_price self * qty] |},
     inr (price * qty - fee - avg_price self * qty)).
Proof. intros H. unfold sell. by case_decide. Qed.

Lemma sell_raises self price qty fee :
  quantity self < qty →
  sell self price qty fee = (self, inl InsufficientHoldings).
Proof. intros H. unfold sell. by case_decide. Qed.

End investment.

(** *** The unit tests of [investment.py] *)

Example test_buy :
  let inv := Investment.buy Investment.init (Qc_of_Z 100) (Qc_of_Z 10) (Qc_of_Z 5) in
  Investment.quantity inv = Qc_of_Z 10 ∧
  Investment.total_cost inv = Qc_of_Z 1005 ∧
  Investment.avg_price inv = frac 1005 10.
Proof. cbv zeta. repeat split; compute_done. Qed.

Example test_multiple_buys :
  let inv := Investment.buy Investment.init (Qc_of_Z 100) (Qc_of_Z 10) (Qc_of_Z 5) in
  let inv := Investment.buy inv (Qc_of_Z 110) (Qc_of_Z 5) 2 in
  Investment.quantity inv = Qc_of_Z 15 ∧
  Investment.total_cost inv = Qc_of_Z 1557 ∧
  Investment.avg_price inv = frac 1038 10.
Proof. cbv zeta. repeat split; compute_done. Qed.

Example test_complete_selling :
  let inv := Investment.buy Investment.init (Qc_of_Z 50) (Qc_of_Z 20) 0 in
  let out := Investment.sell inv (Qc_of_Z 60) (Qc_of_Z 20) 0 in
  out.2 = inr (Qc_of_Z 200) ∧
  Investment.quantity out.1 = 0 ∧
  Investment.total_cost out.1 = 0 ∧
  Investment.avg_price out.1 = 0 ∧
  Investment.total_realized_profit_loss out.1 = Qc_of_Z 200.
Proof. cbv zeta. repeat split; compute_done. Qed.

Example test_loss_on_sale :
  let inv := Investment.buy Investment.init (Qc_of_Z 200) (Qc_of_Z 5) (Qc_of_Z 10) in
  let out := Investment.sell inv (Qc_of_Z 190) (Qc_of_Z 5) (Qc_of_Z 5) in
  out.2 = inr (Qc_of_Z (-65)) ∧
  Investment.quantity out.1 = 0 ∧
  Investment.total_cost out.1 = 0.
Proof. cbv zeta. repeat split; compute_done. Qed.

Example test_avg_price_after_partial_sale :
  let inv := Investment.buy Investment.init (Qc_of_Z 100) (Qc_of_Z 10) 0 in
  let inv := Investment.buy inv (Qc_of_Z 150) (Qc_of_Z 10) 0 in
  let out := Investment.sell inv (Qc_of_Z 130) (Qc_of_Z 5) 0 in
  Investment.quantity out.1 = Qc_of_Z 15 ∧
  Investment.avg_price out.1 = Qc_of_Z 125 ∧
  Investment.total_cost out.1 = Qc_of_Z 1875.
Proof. cbv zeta. repeat split; compute_done. Qed.

(** C5 (sell conservation).  A sale of [qty] units, [0 < qty <= q0], from a
    position holding [q0] units at total cost [c0] succeeds: it leaves
    [q0 - qty] units at total cost [c0 - a0 * qty], where [a0 = c0 / q0] is
    the average price before the sale, returns the profit or loss
    [price * qty - fee - a0 * qty], and appends that one value, and nothing
    else, to the realized events.  The cost removed does not depend on the
    sale price. *)
Theorem sell_conservation (self : Investment.t) (price qty fee : Qc) :
  0 < qty → qty ≤ Investment.quantity self →
  let q0 := Investment.quantity self in
  let c0 := Investment.total_cost self in
  let a0 := c0 / q0 in
  Investment.avg_price self = a0 ∧
  Investment.sell self price qty fee =
    ({| Investment.quantity := q0 - qty;
        Investment.total_cost := c0 - a0 * qty;
        Investment.realized_profit_loss :=
          Investment.realized_profit_loss self
            ++ [price * qty - fee - a0 * qty] |},
     inr (price * qty - fee - a0 * qty)).
Proof.
  intros Hpos Hle q0 c0 a0.
  assert (Havg : Investment.avg_price self = a0).
  { apply avg_price_held. by eapply Qc_pos_le_nonzero. }
  split; [done|].
  rewrite sell_ok by by apply Qcle_not_lt.
  by rewrite Havg.
Qed.

(** Scenario 3 of the specification: 15 units held at a total cost of 1557;
    8 of them sold at 120 with a fee of 3. *)
Lemma sell_conservation_witness :
  let self := Investment.Build (Qc_of_Z 15) (Qc_of_Z 1557) [] in
  let price := Qc_of_Z 120 in
  let qty := Qc_of_Z 8 in
  let fee := Qc_of_Z 3 in
  (0 < qty ∧ qty ≤ Investment.quantity self) ∧
  Investment.avg_price self = Qc_of_Z 1557 / Qc_of_Z 15 ∧
  Investment.sell self price qty fee =
    ({| Investment.quantity := Qc_of_Z 15 - qty;
        Investment.total_cost :=
          Qc_of_Z 1557 - Qc_of_Z 1557 / Qc_of_Z 15 * qty;
        Investment.realized_profit_loss :=
          [] ++ [price * qty - fee - Qc_of_Z 1557 / Qc_of_Z 15 * qty] |},
     inr (price * qty - fee - Qc_of_Z 1557 / Qc_of_Z 15 * qty)).
Proof.
  intros self price qty fee.
  split; [split; compute_done|].
  apply (sell_conservation self price qty fee); compute_done.
Defined.

(** The same sale in numbers: 7 units and 726.6 of cost are left, and the
    profit is 126.6. *)
Example sell_scenario_3 :
  Investment.sell (Investment.Build (Qc_of_Z 15) (Qc_of_Z 1557) [])
                  (Qc_of_Z 120) (Qc_of_Z 8) (Qc_of_Z 3)
  = (Investment.Build (Qc_of_Z 7) (frac 7266 10) [frac 1266 10],
     inr (frac 1266 10)).
Proof. compute_done. Qed.

(** ** [Portfolio]: closed forms of the two methods *)

Section portfolio.
Import Portfolio.
Implicit Types (self : Portfolio.t) (m : gmap string Investment.t).
Implicit Types (action asset target cur : string) (ts : Timestamp).
Implicit Types (price qty fee : Qc).

Lemma ensure_entry_lookup k m :
  ensure_entry k m !! k = Some (default Investment.init (m !! k)).
Proof.
  unfold ensure_entry. destruct (m !! k) eqn:E; simpl; [done|].
  by rewrite lookup_insert_eq.
Qed.

Lemma ensure_entry_total k m : ensure_entry k m !!! k = m !!! k.
Proof.
  rewrite !lookup_total_alt, ensure_entry_lookup. simpl.
  by destruct (m !! k).
Qed.

Lemma ensure_entry_other k j m :
  k ≠ j → ensure_entry k m !! j = m !! j.
Proof.
  intros H. unfold ensure_entry. destruct (m !! k); [done|].
  by rewrite lookup_insert_ne.
Qed.

Lemma ensure_entry_present k m inv :
  m !! k = Some inv → ensure_entry k m = m.
Proof. intros H. unfold ensure_entry. by rewrite H. Qed.

Lemma ensure_entry_keeps k j m inv :
  m !! j = Some inv → ensure_entry k m !! j = Some inv.
Proof.
  intros H. destruct (decide (k = j)) as [->|Hne].
  - by rewrite ensure_entry_lookup, H.
  - by rewrite ensure_entry_other.
Qed.

Lemma handle_conversion_unfold from_asset target qty price fee ts self :
  handle_conversion from_asset target qty price fee ts self =
    match investments self !! from_asset with
    | None => (self, inl NoHoldings)
    | Some src =>
        let avg := Investment.avg_price src in
        if decide (avg = 0) then (self, inl ZeroDivisionError)
        else
          let qts := (price * qty + fee) / avg in
          if decide (Investment.quantity src < qts)
          then (self, inl InsufficientHoldings)
          else
            let m' := converted from_asset target qts qty price fee
                                (investments self) in
            (Build m' (base_currency self)
               (transactions self
                  ++ [sell_leg from_asset (Investment.avg_price (m' !!! from_asset))
                               qts fee (base_currency self) ts;
                      buy_leg target price qty (base_currency self) ts]),
             inr tt)
    end.
Proof.
  destruct self as [m bc txs].
  unfold handle_conversion, mbind, M_bind, mret, M_ret, raise,
    investments_get, avg_price_at, quantity_at, div, py_div. simpl.
  destruct (m !! from_asset) as [src|] eqn:Hsrc; [|done].
  rewrite (lookup_total_correct _ _ _ Hsrc).
  destruct (decide (Investment.avg_price src = 0)); [done|].
  destruct (decide (Investment.quantity src < _)) as [|Hheld]; [done|].
  unfold sell_at, buy_at, investments_set, get_base_currency,
    transactions_append, converted. simpl.
  rewrite (lookup_total_correct _ _ _ Hsrc).
  rewrite (sell_ok _ _ _ _ Hheld). simpl.
  unfold ensure_entry.
  destruct (<[from_asset := _]> m !! target) eqn:Htgt; simpl.
  - by rewrite <- app_assoc.
  - by rewrite <- app_assoc.
Qed.

Ltac unfold_add_transaction :=
  unfold add_transaction, mbind, M_bind, mret, M_ret, raise,
    investments_get, investments_set, buy_at, sell_at,
    transactions_append, ensured; simpl.

(** What [add_transaction] does after its get-or-create, as a function of
    the portfolio reached by it. *)
Lemma add_transaction_unfold action asset price qty fee cur ts to_asset self :
  add_transaction action asset price qty fee cur ts to_asset self =
    let s0 := ensured asset self in
    let m0 := investments s0 in
    let bc := base_currency self in
    let txs := transactions self in
    let r := request_record action asset price qty fee cur ts to_asset in
    if decide (action = "buy") then
      (Build (<[asset := Investment.buy (m0 !!! asset) price qty fee]> m0)
             bc (txs ++ [r]), inr tt)
    else if decide (action = "sell") then
      match Investment.sell (m0 !!! asset) price qty fee with
      | (inv', inr _) => (Build (<[asset := inv']> m0) bc (txs ++ [r]), inr tt)
      | (inv', inl e) => (Build (<[asset := inv']> m0) bc txs, inl e)
      end
    else if decide (action = "deposit") then
      (Build (<[asset := Investment.buy (m0 !!! asset) 0 qty 0]> m0)
             bc (txs ++ [r]), inr tt)
    else if decide (action = "convert") then
      match to_asset with
      | None => (s0, inl MissingConversionTarget)
      | Some target =>
          if decide (target = "") then (s0, inl MissingConversionTarget)
          else
            match handle_conversion asset target qty price fee ts s0 with
            | (s', inr _) =>
                (Build (investments s') (base_currency s')
                       (transactions s' ++ [r]), inr tt)
            | (s', inl e) => (s', inl e)
            end
      end
    else (s0, inl UnknownAction).
Proof.
  destruct self as [m bc txs]. unfold_add_transaction.
  unfold ensure_entry.
  destruct (m !! asset) as [inv|] eqn:Hinv; simpl;
    repeat (case_decide; simpl; try done);
    try (destruct (Investment.sell _ _ _ _) as [inv' [e|pl]]; done);
    try (destruct to_asset as [target|]; [|done]; case_decide; [done|];
         destruct (handle_conversion _ _ _ _ _ _ _) as [s' [e|[]]]; done).
Qed.

(** *** Failing calls *)

Lemma ensure_entry_write_back k m :
  <[k := ensure_entry k m !!! k]> (ensure_entry k m) = ensure_entry k m.
Proof.
  apply insert_id. rewrite ensure_entry_lookup, ensure_entry_total.
  rewrite lookup_total_alt. by destruct (m !! k).
Qed.

(** A call that raises leaves the portfolio as the opening get-or-create
    left it. *)
Lemma add_transaction_raises action asset price qty fee cur ts to_asset self e :
  (add_transaction action asset price qty fee cur ts to_asset self).2 = inl e →
  (add_transaction action asset price qty fee cur ts to_asset self).1
    = ensured asset self.
Proof.
  rewrite add_transaction_unfold. cbv zeta.
  repeat case_decide; simpl; try done.
  - unfold Investment.sell. case_decide; simpl; [|done].
    intros _. unfold ensured. f_equal. apply ensure_entry_write_back.
  - destruct to_asset as [target|]; [|done].
    case_decide; [done|].
    rewrite handle_conversion_unfold. simpl.
    destruct (ensure_entry asset (investments self) !! asset) as [src|]; [|done].
    simpl. repeat case_decide; done.
Qed.

End portfolio.

(** C6 (oversell rejection).  A sale of more units than the position holds
    raises [InsufficientHoldings], and the position after the call is the
    position before it: quantity, total cost and realized events are
    untouched. *)
Theorem oversell_rejected (self : Investment.t) (price qty fee : Qc) :
  Investment.quantity self < qty →
  let out := Investment.sell self price qty fee in
  out.2 = inl InsufficientHoldings ∧
  Investment.quantity out.1 = Investment.quantity self ∧
  Investment.total_cost out.1 = Investment.total_cost self ∧
  Investment.realized_profit_loss out.1 = Investment.realized_profit_loss self.
Proof. intros H. cbv zeta. by rewrite sell_raises. Qed.

(** [test_sell_more_than_owned]: 5 units bought at 100, 10 offered for sale. *)
Lemma oversell_rejected_witness :
  let self := Investment.buy Investment.init (Qc_of_Z 100) (Qc_of_Z 5) 0 in
  let out := Investment.sell self (Qc_of_Z 110) (Qc_of_Z 10) 0 in
  Investment.quantity self < Qc_of_Z 10 ∧
  out.2 = inl InsufficientHoldings ∧
  Investment.quantity out.1 = Investment.quantity self ∧
  Investment.total_cost out.1 = Investment.total_cost self ∧
  Investment.realized_profit_loss out.1 = Investment.realized_profit_loss self.
Proof.
  intros self out. split; [compute_done|].
  apply (oversell_rejected self (Qc_of_Z 110) (Qc_of_Z 10) 0). compute_done.
Defined.

(** The same through the portfolio: an oversell of a held asset changes
    nothing at all. *)
Lemma add_transaction_oversell asset price qty fee cur ts to_asset
    (self : Portfolio.t) (inv : Investment.t) :
  Portfolio.investments self !! asset = Some inv →
  Investment.quantity inv < qty →
  Portfolio.add_transaction "sell" asset price qty fee cur ts to_asset self
    = (self, inl InsufficientHoldings).
Proof.
  intros Hinv Hlt. rewrite add_transaction_unfold. cbv zeta.
  rewrite decide_False, decide_True by done.
  unfold ensured. rewrite (ensure_entry_present _ _ _ Hinv).
  rewrite (lookup_total_correct _ _ _ Hinv), sell_raises by done.
  rewrite insert_id by done. by destruct self.
Qed.

(** ** Failing calls (C1, C3, C8) *)

(** C1, as stated, fails: a sale of an asset the portfolio has never seen
    raises [InsufficientHoldings], and the portfolio has gained an entry,
    an empty [Investment] for that asset. *)
Lemma failed_call_creates_entry :
  let self := Portfolio.init "SEK" in
  let out := Portfolio.add_transaction "sell" "BTC" (Qc_of_Z 100) 1 0
                                       "SEK" None None self in
  out.2 = inl InsufficientHoldings ∧
  out.1 ≠ self ∧
  Portfolio.investments self !! "BTC" = None ∧
  Portfolio.investments out.1 !! "BTC" = Some Investment.init.
Proof. cbv zeta. repeat split; compute_done. Qed.

(** C1, amended.  A call of [add_transaction] that raises, whatever the
    exception, leaves the audit trail and the base currency as they were and
    every entry the portfolio had as it was; the only change it can make is
    the entry created by the opening get-or-create, an empty [Investment]
    for [asset] where the portfolio had none. *)
Theorem failed_call_state action asset price qty fee cur ts to_asset
    (self : Portfolio.t) (e : Error) :
  (Portfolio.add_transaction action asset price qty fee cur ts to_asset self).2
    = inl e →
  let self' :=
    (Portfolio.add_transaction action asset price qty fee cur ts to_asset self).1 in
  Portfolio.transactions self' = Portfolio.transactions self ∧
  Portfolio.base_currency self' = Portfolio.base_currency self ∧
  Portfolio.investments self' =
    match Portfolio.investments self !! asset with
    | Some _ => Portfolio.investments self
    | None => <[asset := Investment.init]> (Portfolio.investments self)
    end ∧
  (∀ k inv, Portfolio.investments self !! k = Some inv →
            Portfolio.investments self' !! k = Some inv).
Proof.
  intros H. cbv zeta. rewrite (add_transaction_raises _ _ _ _ _ _ _ _ _ _ H).
  repeat split; try done.
  intros k inv Hk. by apply ensure_entry_keeps.
Qed.

(** A sale of an asset never seen, in a portfolio that holds two others. *)
Lemma failed_call_state_witness :
  let self :=
    Portfolio.Build {[ "BTC" := Investment.Build 1 (Qc_of_Z 1000) [];
                       "ETH" := Investment.Build 2 (Qc_of_Z 600) [] ]}
                    "SEK" [] in
  let out := Portfolio.add_transaction "sell" "SOL" (Qc_of_Z 100) 2 0
                                       "SEK" None None self in
  out.2 = inl InsufficientHoldings ∧
  Portfolio.transactions out.1 = Portfolio.transactions self ∧
  Portfolio.base_currency out.1 = Portfolio.base_currency self ∧
  Portfolio.investments out.1 =
    match Portfolio.investments self !! "SOL" with
    | Some _ => Portfolio.investments self
    | None => <["SOL" := Investment.init]> (Portfolio.investments self)
    end ∧
  (∀ k inv, Portfolio.investments self !! k = Some inv →
            Portfolio.investments out.1 !! k = Some inv).
Proof.
  intros self out.
  assert (H : out.2 = inl InsufficientHoldings) by compute_done.
  split; [exact H|].
  exact (failed_call_state "sell" "SOL" (Qc_of_Z 100) 2 0 "SEK" None None
                           self InsufficientHoldings H).
Defined.

(** C3: what the code does for a conversion out of an asset the portfolio
    has no entry for.  The opening get-or-create of [add_transaction] stores
    an empty [Investment] for it, so the [NoHoldings] test of
    [handle_conversion] finds an entry; the average price of the empty
    entry is 0 and the division raises [ZeroDivisionError].  The created
    entry stays. *)
Theorem convert_from_unseen_asset asset target price qty fee cur ts
    (self : Portfolio.t) :
  Portfolio.investments self !! asset = None →
  target ≠ "" →
  Portfolio.add_transaction "convert" asset price qty fee cur ts (Some target) self
    = (Portfolio.Build (<[asset := Investment.init]> (Portfolio.investments self))
                       (Portfolio.base_currency self)
                       (Portfolio.transactions self),
       inl ZeroDivisionError).
Proof.
  intros Hnone Htarget. rewrite add_transaction_unfold. cbv zeta.
  rewrite 3!decide_False, decide_True, decide_False by done.
  rewrite handle_conversion_unfold. unfold ensured, ensure_entry. simpl.
  by rewrite Hnone, lookup_insert_eq.
Qed.

Lemma convert_from_unseen_asset_witness :
  let self := Portfolio.init "SEK" in
  (Portfolio.investments self !! "BTC" = None ∧ "ETH" ≠ "") ∧
  Portfolio.add_transaction "convert" "BTC" (Qc_of_Z 300) 2 0 "SEK" None
                            (Some "ETH") self
    = (Portfolio.Build {[ "BTC" := Investment.init ]} "SEK" [],
       inl ZeroDivisionError).
Proof.
  intros self. split; [split; compute_done|].
  apply (convert_from_unseen_asset "BTC" "ETH" (Qc_of_Z 300) 2 0 "SEK" None self);
    compute_done.
Defined.

(** The test is there: [handle_conversion] called on its own raises
    [NoHoldings] for a missing source entry and changes nothing. *)
Lemma handle_conversion_no_holdings from_asset target qty price fee ts
    (self : Portfolio.t) :
  Portfolio.investments self !! from_asset = None →
  Portfolio.handle_conversion from_asset target qty price fee ts self
    = (self, inl NoHoldings).
Proof. intros H. rewrite handle_conversion_unfold. by rewrite H. Qed.

(** Through [add_transaction] it cannot fire. *)
Lemma add_transaction_never_no_holdings action asset price qty fee cur ts
    to_asset (self : Portfolio.t) :
  (Portfolio.add_transaction action asset price qty fee cur ts to_asset self).2
    ≠ inl NoHoldings.
Proof.
  rewrite add_transaction_unfold. cbv zeta.
  repeat case_decide; simpl; try done.
  - unfold Investment.sell. by case_decide.
  - destruct to_asset as [target|]; [|done].
    case_decide; [done|].
    rewrite handle_conversion_unfold. unfold ensured. simpl.
    rewrite ensure_entry_lookup. simpl.
    repeat case_decide; done.
Qed.

(** C8, as stated, fails in its second case: a conversion whose [to_asset]
    is the source asset itself is carried out.  Here one BTC held at 1000 is
    converted "to BTC": the call returns, the position is rewritten and the
    audit trail grows. *)
Lemma convert_to_same_asset_applies :
  let self :=
    Portfolio.Build {[ "BTC" := Investment.Build 1 (Qc_of_Z 1000) [] ]}
                    "SEK" [] in
  let out := Portfolio.add_transaction "convert" "BTC" (Qc_of_Z 500) 2 0
                                       "SEK" None (Some "BTC") self in
  out.2 = inr tt ∧
  out.2 ≠ inl MissingConversionTarget ∧
  Portfolio.investments out.1 !! "BTC"
    = Some (Investment.Build 2 (Qc_of_Z 1000) [0]) ∧
  length (Portfolio.transactions out.1) = 3%nat.
Proof. cbv zeta. repeat split; compute_done. Qed.

(** C8, amended.  A conversion raises [MissingConversionTarget] whenever
    [to_asset] is absent, that is [None] or the empty string.  Nothing is
    then appended to the audit trail and every entry of the portfolio is as
    it was; an empty [Investment] has been created for the source asset if
    it had no entry. *)
Theorem convert_without_target asset price qty fee cur ts to_asset
    (self : Portfolio.t) :
  to_asset = None ∨ to_asset = Some "" →
  let out :=
    Portfolio.add_transaction "convert" asset price qty fee cur ts to_asset self in
  out.2 = inl MissingConversionTarget ∧
  Portfolio.transactions out.1 = Portfolio.transactions self ∧
  (∀ k inv, Portfolio.investments self !! k = Some inv →
            Portfolio.investments out.1 !! k = Some inv) ∧
  Portfolio.investments out.1 =
    match Portfolio.investments self !! asset with
    | Some _ => Portfolio.investments self
    | None => <[asset := Investment.init]> (Portfolio.investments self)
    end.
Proof.
  intros Hto. cbv zeta.
  assert (Hout :
    Portfolio.add_transaction "convert" asset price qty fee cur ts to_asset self
    = (ensured asset self, inl MissingConversionTarget)).
  { rewrite add_transaction_unfold. cbv zeta.
    rewrite 3!decide_False, decide_True by done.
    destruct Hto as [-> | ->]; [done|]. by rewrite decide_True. }
  rewrite Hout. repeat split; try done.
  intros k inv Hk. by apply ensure_entry_keeps.
Qed.

Lemma convert_without_target_witness :
  let self :=
    Portfolio.Build {[ "BTC" := Investment.Build 1 (Qc_of_Z 1000) [] ]}
                    "SEK" [] in
  let out := Portfolio.add_transaction "convert" "BTC" (Qc_of_Z 300) 2 0
                                       "SEK" None (Some "") self in
  (Some "" = None ∨ Some "" = Some "") ∧
  out.2 = inl MissingConversionTarget ∧
  Portfolio.transactions out.1 = Portfolio.transactions self ∧
  (∀ k inv, Portfolio.investments self !! k = Some inv →
            Portfolio.investments out.1 !! k = Some inv) ∧
  Portfolio.investments out.1 =
    match Portfolio.investments self !! "BTC" with
    | Some _ => Portfolio.investments self
    | None => <["BTC" := Investment.init]> (Portfolio.investments self)
    end.
Proof.
  intros self out. split; [by right|].
  apply (convert_without_target "BTC" (Qc_of_Z 300) 2 0 "SEK" None (Some "") self).
  by right.
Defined.

(** ** Deposits (C7) *)



(** ** Conversions (C2, C4, C10) *)

Section conversion.
Import Portfolio.
Implicit Types (self : Portfolio.t) (m : gmap string Investment.t).
Implicit Types (asset target cur : string) (ts : Timestamp).
Implicit Types (price qty fee qts : Qc) (src : Investment.t).

Lemma sell_own_avg_price src qts fee :
  ¬ Investment.quantity src < qts →
  Investment.sell src (Investment.avg_price src) qts fee
    = (sold_at_avg src qts fee,
       inr (Investment.avg_price src * qts - fee
            - Investment.avg_price src * qts)).
Proof. intros H. by rewrite sell_ok. Qed.

(** The entry of the source asset after both legs.  When the target is the
    source asset the buy leg lands on the position just sold from. *)
Lemma converted_source asset target qts qty price fee m src :
  m !! asset = Some src →
  ¬ Investment.quantity src < qts →
  converted asset target qts qty price fee m !! asset =
    Some (if decide (target = asset)
          then Investment.buy (sold_at_avg src qts fee) price qty 0
          else sold_at_avg src qts fee).
Proof.
  intros Hsrc Hheld. unfold converted. cbv zeta.
  rewrite (lookup_total_correct _ _ _ Hsrc), sell_own_avg_price by done.
  simpl. case_decide as Heq.
  - subst target.
    rewrite (ensure_entry_present asset _ (sold_at_avg src qts fee))
      by apply lookup_insert_eq.
    by rewrite lookup_insert_eq, lookup_total_insert_eq.
  - rewrite lookup_insert_ne by done.
    rewrite ensure_entry_other by done.
    by rewrite lookup_insert_eq.
Qed.

(** A conversion that returns: what was passed, what was held, and the
    portfolio it leaves. *)
Lemma add_transaction_convert_returns asset price qty fee cur ts to_asset self :
  (add_transaction "convert" asset price qty fee cur ts to_asset self).2 = inr tt →
  ∃ target src,
    to_asset = Some target ∧ target ≠ "" ∧
    investments self !! asset = Some src ∧
    Investment.avg_price src ≠ 0 ∧
    let qts := (price * qty + fee) / Investment.avg_price src in
    ¬ Investment.quantity src < qts ∧
    let m' := converted asset target qts qty price fee (investments self) in
    (add_transaction "convert" asset price qty fee cur ts to_asset self).1 =
      Build m' (base_currency self)
        (transactions self
           ++ [sell_leg asset (Investment.avg_price (m' !!! asset)) qts fee
                        (base_currency self) ts;
               buy_leg target price qty (base_currency self) ts;
               request_record "convert" asset price qty fee cur ts to_asset]).
Proof.
  rewrite add_transaction_unfold. cbv zeta.
  rewrite 3!decide_False, decide_True by done.
  destruct to_asset as [target|]; [|done].
  case_decide as Htarget; [done|].
  rewrite handle_conversion_unfold. unfold ensured at 1 3. simpl.
  rewrite ensure_entry_lookup. simpl.
  case_decide as Havg; [done|].
  case_decide as Hheld; [done|]. simpl. intros _.
  destruct (investments self !! asset) as [src|] eqn:Hsrc; simpl in *.
  - exists target, src. repeat split; try done.
    unfold ensured. rewrite (ensure_entry_present _ _ _ Hsrc). simpl.
    by rewrite <- app_assoc.
  - by destruct Havg.
Qed.

(** When a conversion returns: the target is given, the source is held at a
    non-zero average price, and it holds the quantity to sell. *)
Lemma add_transaction_convert_succeeds asset target price qty fee cur ts self src :
  target ≠ "" →
  investments self !! asset = Some src →
  Investment.avg_price src ≠ 0 →
  ¬ Investment.quantity src < (price * qty + fee) / Investment.avg_price src →
  (add_transaction "convert" asset price qty fee cur ts (Some target) self).2
    = inr tt.
Proof.
  intros Htarget Hsrc Havg Hheld.
  rewrite add_transaction_unfold. cbv zeta.
  rewrite 3!decide_False, decide_True, decide_False by done.
  rewrite handle_conversion_unfold. unfold ensured. simpl.
  rewrite (ensure_entry_present _ _ _ Hsrc), Hsrc. simpl.
  by rewrite !decide_False by done.
Qed.

End conversion.

(** C2, as stated, fails: a conversion that returns has appended three
    records, not two.  Scenario 5 of the specification, from an empty
    audit trail: after the two legs comes the record of the request
    itself, with action ["convert"]. *)
Lemma convert_appends_three_records :
  let self :=
    Portfolio.Build {[ "BTC" := Investment.Build 1 (Qc_of_Z 1000) [] ]}
                    "SEK" [] in
  let out := Portfolio.add_transaction "convert" "BTC" (Qc_of_Z 300) 2 0
                                       "SEK" (Some 7%Z) (Some "ETH") self in
  out.2 = inr tt ∧
  Portfolio.transactions out.1 =
    Portfolio.transactions self
      ++ [Transaction.Build (Some 7%Z) "sell" "BTC" None (Qc_of_Z 1000)
                            (frac 6 10) 0 "SEK";
          Transaction.Build (Some 7%Z) "buy" "ETH" None (Qc_of_Z 300) 2 0 "SEK";
          Transaction.Build (Some 7%Z) "convert" "BTC" (Some (Some "ETH"))
                            (Qc_of_Z 300) 2 0 "SEK"] ∧
  length (Portfolio.transactions out.1)
    ≠ (length (Portfolio.transactions self) + 2)%nat.
Proof. cbv zeta. repeat split; compute_done. Qed.

(** C2, amended.  Every conversion that returns appends exactly three
    records to the audit trail, in this order: a ["sell"] record for the
    source asset, a ["buy"] record for the destination asset, and the
    ["convert"] record of the request itself.  All three carry the
    timestamp of the request. *)
Theorem convert_audit_records asset price qty fee cur ts to_asset
    (self : Portfolio.t) :
  (Portfolio.add_transaction "convert" asset price qty fee cur ts to_asset self).2
    = inr tt →
  let self' :=
    (Portfolio.add_transaction "convert" asset price qty fee cur ts to_asset self).1 in
  ∃ r1 r2 r3 : Transaction.t,
    Portfolio.transactions self' = Portfolio.transactions self ++ [r1; r2; r3] ∧
    (Transaction.action r1 = "sell" ∧ Transaction.asset r1 = asset) ∧
    (Transaction.action r2 = "buy" ∧ Some (Transaction.asset r2) = to_asset) ∧
    (Transaction.action r3 = "convert" ∧ Transaction.asset r3 = asset) ∧
    Transaction.timestamp r1 = ts ∧
    Transaction.timestamp r2 = ts ∧
    Transaction.timestamp r3 = ts.
Proof.
  intros Hok. cbv zeta.
  destruct (add_transaction_convert_returns _ _ _ _ _ _ _ _ Hok)
    as (target & src & -> & _ & _ & _ & _ & ->).
  simpl. eexists _, _, _. split; [reflexivity|]. done.
Qed.

Lemma convert_audit_records_witness :
  let self :=
    Portfolio.Build {[ "BTC" := Investment.Build 1 (Qc_of_Z 1000) [] ]}
                    "SEK" [] in
  let out := Portfolio.add_transaction "convert" "BTC" (Qc_of_Z 300) 2 0
                                       "SEK" (Some 7%Z) (Some "ETH") self in
  out.2 = inr tt ∧
  ∃ r1 r2 r3 : Transaction.t,
    Portfolio.transactions out.1 = Portfolio.transactions self ++ [r1; r2; r3] ∧
    (Transaction.action r1 = "sell" ∧ Transaction.asset r1 = "BTC") ∧
    (Transaction.action r2 = "buy" ∧ Some (Transaction.asset r2) = Some "ETH") ∧
    (Transaction.action r3 = "convert" ∧ Transaction.asset r3 = "BTC") ∧
    Transaction.timestamp r1 = Some 7%Z ∧
    Transaction.timestamp r2 = Some 7%Z ∧
    Transaction.timestamp r3 = Some 7%Z.
Proof.
  intros self out.
  assert (H : out.2 = inr tt) by compute_done.
  split; [exact H|].
  exact (convert_audit_records "BTC" (Qc_of_Z 300) 2 0 "SEK" (Some 7%Z)
                               (Some "ETH") self H).
Defined.

(** ** The ledger on binary64 numbers *)

Section ledger64.
Import Binary64 Binary64.Portfolio.
Local Open Scope float_scope.
Implicit Types (self : Portfolio.t) (m : gmap string Investment.t).
Implicit Types (inv src : Investment.t) (price qty fee sold : float).
Implicit Types (action asset target cur k : string) (ts : Timestamp).

Lemma avg_price_init : Investment.avg_price Investment.init = 0.
Proof. reflexivity. Qed.

(** A sale that passes the test of [sell]. *)
Lemma sell_returns inv price qty fee :
  (Investment.quantity inv <? qty) = false →
  Investment.sell inv price qty fee =
    let profit_loss := (price * qty - fee) - Investment.avg_price inv * qty in
    ({| Investment.quantity := Investment.quantity inv - qty;
        Investment.total_cost :=
          Investment.total_cost inv - Investment.avg_price inv * qty;
        Investment.realized_profit_loss :=
          Investment.realized_profit_loss inv ++ [profit_loss] |},
     inr profit_loss).
Proof. intros H. unfold Investment.sell. by rewrite H. Qed.

(** A conversion that gets through [handle_conversion]: the source
    position is there with an average price that is not zero, it passes
    the test on the quantity to sell, and both legs are applied. *)
Lemma handle_conversion_returns asset target qty price fee ts self :
  (handle_conversion asset target qty price fee ts self).2 = inr tt →
  ∃ src,
    investments self !! asset = Some src ∧
    let avg := Investment.avg_price src in
    let sold := (price * qty + fee) / avg in
    (avg =? 0) = false ∧
    (Investment.quantity src <? sold) = false ∧
    investments (handle_conversion asset target qty price fee ts self).1
      = converted asset target sold qty price fee (investments self).
Proof.
  destruct self as [m bc txs].
  unfold handle_conversion, mbind, M_bind, mret, M_ret, raise,
    investments_get, avg_price_at, quantity_at, div, py_div. simpl.
  destruct (m !! asset) as [src|] eqn:Hsrc; [|done].
  rewrite (lookup_total_correct _ _ _ Hsrc).
  destruct (Investment.avg_price src =? 0) eqn:Havg; [done|].
  destruct (Investment.quantity src <? _) eqn:Hheld; [done|].
  intros _. exists src. split; [done|]. cbv zeta.
  split; [done|]. split; [done|].
  unfold sell_at, buy_at, investments_set, get_base_currency,
    transactions_append, converted. simpl.
  rewrite (lookup_total_correct _ _ _ Hsrc).
  rewrite (sell_returns _ _ _ _ Hheld). simpl.
  unfold ensure_entry.
  destruct (<[asset := _]> m !! target) eqn:Htgt; reflexivity.
Qed.

Lemma convert_returns asset price qty fee cur ts to_asset self :
  (add_transaction "convert" asset price qty fee cur ts to_asset self).2
    = inr tt →
  ∃ target src,
    to_asset = Some target ∧
    investments self !! asset = Some src ∧
    let avg := Investment.avg_price src in
    let sold := (price * qty + fee) / avg in
    (Investment.quantity src <? sold) = false ∧
    investments
      (add_transaction "convert" asset price qty fee cur ts to_asset self).1
      = converted asset target sold qty price fee (investments self).
Proof.
  unfold add_transaction.
  rewrite 3!decide_False, decide_True by done.
  unfold mbind, M_bind, mret, M_ret, raise, investments_get,
    transactions_append. simpl.
  destruct to_asset as [target|].
  2: { by destruct (investments self !! asset). }
  destruct (decide (target = "")).
  { by destruct (investments self !! asset). }
  destruct (investments self !! asset) as [src|] eqn:Hsrc.
  - destruct (handle_conversion asset target qty price fee ts self)
      as [self' [e|[]]] eqn:Hconv; [done|]. simpl.
    intros _.
    destruct (handle_conversion_returns asset target qty price fee ts self)
      as (src' & Hsrc' & _ & Hheld & Hm).
    { by rewrite Hconv. }
    rewrite Hconv in Hm. simpl in Hm.
    assert (src' = src) as -> by congruence.
    by exists target, src.
  - unfold investments_set. simpl.
    match goal with
    | |- context [handle_conversion _ _ _ _ _ _ ?s] =>
        destruct (handle_conversion asset target qty price fee ts s)
          as [self' [e|[]]] eqn:Hconv;
        [done|];
        destruct (handle_conversion_returns asset target qty price fee ts s)
          as (src' & Hsrc' & Havg & _); [by rewrite Hconv|]
    end.
    simpl in Hsrc'. rewrite lookup_insert_eq in Hsrc'.
    injection Hsrc' as <-. by rewrite avg_price_init in Havg.
Qed.

(** The entry of the source asset after both legs.  When the target is the
    source asset the buy leg lands on the position just sold from. *)
Lemma converted_source64 asset target sold qty price fee m src :
  m !! asset = Some src →
  converted asset target sold qty price fee m !! asset =
    let src' :=
      (Investment.sell src (Investment.avg_price src) sold fee).1 in
    Some (if decide (target = asset)
          then Investment.buy src' price qty 0
          else src').
Proof.
  intros Hsrc. unfold converted, ensure_entry. cbv zeta.
  rewrite (lookup_total_correct _ _ _ Hsrc).
  case_decide as Heq.
  - subst target. rewrite lookup_insert_eq.
    by rewrite lookup_insert_eq, lookup_total_insert_eq.
  - rewrite lookup_insert_ne by done.
    destruct (<[asset := _]> m !! target);
      [|rewrite lookup_insert_ne by done]; by rewrite lookup_insert_eq.
Qed.

(** *** What every call keeps *)

Lemma keeps_ret (I : Portfolio.t → Prop) {A} (x : A) : keeps I (mret x).
Proof. by intros self. Qed.

Lemma keeps_raise (I : Portfolio.t → Prop) {A} (e : Error) :
  keeps I (raise (A := A) e).
Proof. by intros self. Qed.

Lemma keeps_bind (I : Portfolio.t → Prop) {A B} (c : M A) (f : A → M B) :
  keeps I c → (∀ x, keeps I (f x)) → keeps I (c ≫= f).
Proof.
  intros Hc Hf self Hself. unfold mbind, M_bind.
  specialize (Hc self Hself).
  destruct (c self) as [self' [e|x]]; simpl in *; [done|].
  by apply Hf.
Qed.

(** No position holds a quantity below zero. *)
Local Abbreviation not_below inv := ((Investment.quantity inv <? 0) = false).
Local Abbreviation none_below self :=
  (map_Forall (λ (_ : string) inv, not_below inv) (investments self)).

Lemma none_below_total self k :
  none_below self → not_below (investments self !!! k).
Proof.
  intros H. rewrite lookup_total_alt.
  destruct (investments self !! k) as [inv|] eqn:Hk; simpl; [|done].
  by apply (H k).
Qed.

Lemma keeps_investments_set k inv :
  not_below inv → keeps (λ self, none_below self) (investments_set k inv).
Proof. intros Hinv self Hself. simpl. by apply map_Forall_insert_2. Qed.

Lemma keeps_buy_at k price qty fee :
  (0 <? qty) = true → keeps (λ self, none_below self) (buy_at k price qty fee).
Proof.
  intros Hqty self Hself. apply keeps_investments_set; [|done].
  apply add_not_below; [|done]. by apply none_below_total.
Qed.

Lemma keeps_sell_at k price qty fee :
  keeps (λ self, none_below self) (sell_at k price qty fee).
Proof.
  intros self Hself. unfold sell_at.
  pose proof (none_below_total self k Hself) as Hk.
  unfold Investment.sell.
  destruct (Investment.quantity (investments self !!! k) <? qty) eqn:Hheld;
    simpl; (apply map_Forall_insert_2; [|done]); [done|].
  by apply sub_not_below.
Qed.

Lemma keeps_handle_conversion asset target qty price fee ts :
  (0 <? qty) = true →
  keeps (λ self, none_below self)
        (handle_conversion asset target qty price fee ts).
Proof.
  intros Hqty. unfold handle_conversion.
  apply keeps_bind; [by intros ??|]. intros [src|]; [|by intros ??].
  apply keeps_bind; [by intros ??|]. intros avg.
  apply keeps_bind; [by intros ??|]. intros sold.
  apply keeps_bind; [by intros ??|]. intros held.
  destruct (held <? sold); [by intros ??|].
  apply keeps_bind; [by intros ??|]. intros avg'.
  apply keeps_bind; [apply keeps_sell_at|]. intros profit_loss_sell.
  apply keeps_bind; [by intros ??|]. intros to_investment.
  apply keeps_bind.
  { destruct to_investment; [by intros ??|]. by apply keeps_investments_set. }
  intros _. apply keeps_bind; [by apply keeps_buy_at|]. intros _.
  apply keeps_bind; [by intros ??|]. intros avg''.
  apply keeps_bind; [by intros ??|]. intros currency.
  apply keeps_bind; [by intros ??|]. intros _.
  apply keeps_bind; [by intros ??|]. intros currency'. by intros ??.
Qed.

(** One call, returning or raising, leaves no quantity below zero. *)
Lemma keeps_add_transaction action asset price qty fee cur ts to_asset :
  (0 <? qty) = true →
  keeps (λ self, none_below self)
        (add_transaction action asset price qty fee cur ts to_asset).
Proof.
  intros Hqty. unfold add_transaction.
  apply keeps_bind; [by intros ??|]. intros investment.
  apply keeps_bind.
  { destruct investment; [by intros ??|]. by apply keeps_investments_set. }
  intros _. apply keeps_bind; [|by intros ??].
  repeat case_decide.
  - by apply keeps_buy_at.
  - apply keeps_bind; [apply keeps_sell_at|by intros ???].
  - by apply keeps_buy_at.
  - destruct to_asset as [target|]; [|by intros ??].
    case_decide; [by intros ??|]. by apply keeps_handle_conversion.
  - by intros ??.
Qed.

Lemma holdings_not_negative_call self r :
  holdings_not_negative self → (0 <? Request.quantity r) = true →
  holdings_not_negative (call self r).1.
Proof.
  unfold holdings_not_negative, not_negative. intros Hself Hqty.
  assert (Hnone : none_below self).
  { intros k inv Hk. apply ltb_zero_false_iff. by apply (Hself k). }
  pose proof (keeps_add_transaction (Request.action r) (Request.asset r)
                (Request.price r) (Request.quantity r) (Request.fee r)
                (Request.transaction_currency r) (Request.timestamp r)
                (Request.to_asset r) Hqty self Hnone) as Hnext.
  intros k inv Hk. apply ltb_zero_false_iff. by apply (Hnext k).
Qed.

Lemma holdings_not_negative_states self rs :
  holdings_not_negative self → Forall well_formed rs →
  Forall holdings_not_negative (states_after self rs).
Proof.
  intros Hself Hrs. revert self Hself.
  induction Hrs as [|r rs [Hqty _] _ IH]; intros self Hself; simpl.
  - constructor.
  - assert (Hnext : holdings_not_negative (call self r).1)
      by by apply holdings_not_negative_call.
    constructor; [done|]. by apply IH.
Qed.

(** A row that is not skipped asks for its own quantity, which is not
    NaN. *)
Lemma row_request_quantity (row : Row.t) (r : Request.t) :
  row_request row = Some r →
  is_nan (Row.quantity_transacted row) = false ∧
  Request.quantity r = Row.quantity_transacted row.
Proof.
  unfold row_request.
  destruct (is_nan (Row.quantity_transacted row)); [done|]. cbv zeta.
  repeat case_decide; try done; try (by intros [= <-]).
  destruct (extract_to_asset_from_notes _ _) as [target|]; [|done].
  case_decide; [done|]. by intros [= <-].
Qed.

End ledger64.

(** C4, as stated, fails on the numbers the program computes with.  One
    BTC held at 1000 is converted into 2 ETH at 300 with a fee of
    [float("0.1")]: the call returns, and the value realized on the source
    position is -0.10000000000002274, which is not [- fee]. *)
Lemma conversion_fee_not_neutral :
  let src := Binary64.Investment.Build 1 1000 [] in
  let self := Binary64.Portfolio.Build {[ "BTC" := src ]} "SEK" [] in
  let out :=
    Binary64.Portfolio.add_transaction "convert" "BTC" 300 2 Binary64.tenth
                                       "SEK" None (Some "ETH") self in
  let realized := (-0x1.999999999ap-4)%float in
  out.2 = inr tt ∧
  Binary64.Investment.realized_profit_loss
    <$> (Binary64.Portfolio.investments out.1 !! "BTC") = Some [realized] ∧
  (realized =? - Binary64.tenth)%float = false.
Proof. cbv zeta. repeat split; vm_compute; reflexivity. Qed.

(** C4, amended.  Every conversion that returns has appended exactly one
    value to the realized profit/loss of the source position: the binary64
    value of [(avg * sold - fee) - avg * sold], where [avg] is the average
    price of the source position before the call and
    [sold = (price * quantity + fee) / avg] the quantity sold from it.
    With a zero fee that value is exactly 0 whenever [avg * sold] is
    finite, and NaN when it is not.  With another fee it is what the two
    rounded subtractions leave, which need not be [- fee]; through [avg]
    and [sold] the destination price, the destination quantity and the
    holdings of the source position all enter it. *)
Theorem conversion_source_leg_value asset price qty fee cur ts to_asset
    (self : Binary64.Portfolio.t) :
  (Binary64.Portfolio.add_transaction
     "convert" asset price qty fee cur ts to_asset self).2 = inr tt →
  let self' :=
    (Binary64.Portfolio.add_transaction
       "convert" asset price qty fee cur ts to_asset self).1 in
  ∃ src src' : Binary64.Investment.t,
    Binary64.Portfolio.investments self !! asset = Some src ∧
    Binary64.Portfolio.investments self' !! asset = Some src' ∧
    let avg := Binary64.Investment.avg_price src in
    let sold := ((price * qty + fee) / avg)%float in
    Binary64.Investment.realized_profit_loss src'
      = Binary64.Investment.realized_profit_loss src
          ++ [((avg * sold - fee) - avg * sold)%float] ∧
    ((fee =? 0)%float = true →
     Binary64.Investment.realized_profit_loss src'
       = Binary64.Investment.realized_profit_loss src
           ++ [if is_finite (avg * sold) then 0%float else nan]).
Proof.
  intros Hok. cbv zeta.
  destruct (convert_returns _ _ _ _ _ _ _ _ Hok)
    as (target & src & -> & Hsrc & Hheld & ->).
  rewrite (converted_source64 _ _ _ _ _ _ _ _ Hsrc). cbv zeta.
  rewrite (sell_returns _ _ _ _ Hheld). cbv zeta. simpl.
  eexists src, _. split; [done|]. split; [reflexivity|].
  set (avg := Binary64.Investment.avg_price src).
  set (sold := ((price * qty + fee) / avg)%float).
  assert (Hrealized :
    Binary64.Investment.realized_profit_loss
      (if decide (target = asset)
       then Binary64.Investment.buy
              {| Binary64.Investment.quantity :=
                   (Binary64.Investment.quantity src - sold)%float;
                 Binary64.Investment.total_cost :=
                   (Binary64.Investment.total_cost src - avg * sold)%float;
                 Binary64.Investment.realized_profit_loss :=
                   Binary64.Investment.realized_profit_loss src
                     ++ [((avg * sold - fee) - avg * sold)%float] |}
              price qty 0
       else
         {| Binary64.Investment.quantity :=
              (Binary64.Investment.quantity src - sold)%float;
            Binary64.Investment.total_cost :=
              (Binary64.Investment.total_cost src - avg * sold)%float;
            Binary64.Investment.realized_profit_loss :=
              Binary64.Investment.realized_profit_loss src
                ++ [((avg * sold - fee) - avg * sold)%float] |})
    = Binary64.Investment.realized_profit_loss src
        ++ [((avg * sold - fee) - avg * sold)%float]).
  { by case_decide. }
  split; [exact Hrealized|].
  intros Hfee. rewrite Hrealized. do 2 f_equal.
  destruct (is_finite (avg * sold)) eqn:Hfin.
  - by apply sub_zero_sub_finite.
  - by apply sub_zero_sub_not_finite.
Qed.

(** One BTC held at 1000, converted into 2 ETH at 300 with no fee. *)
Lemma conversion_source_leg_value_witness :
  let src := Binary64.Investment.Build 1 1000 [] in
  let self := Binary64.Portfolio.Build {[ "BTC" := src ]} "SEK" [] in
  let out :=
    Binary64.Portfolio.add_transaction "convert" "BTC" 300 2 0
                                       "SEK" None (Some "ETH") self in
  out.2 = inr tt ∧
  ∃ src' : Binary64.Investment.t,
    Binary64.Portfolio.investments out.1 !! "BTC" = Some src' ∧
    Binary64.Investment.realized_profit_loss src' = [0%float].
Proof.
  intros src self out.
  assert (H : out.2 = inr tt) by (vm_compute; reflexivity).
  split; [exact H|].
  destruct (conversion_source_leg_value "BTC" 300 2 0 "SEK" None (Some "ETH")
              self H)
    as (x & src' & Hx & Hsrc' & _ & Hzero).
  assert (x = src) as -> by (apply (inj Some); by rewrite <- Hx).
  exists src'. split; [exact Hsrc'|].
  rewrite (Hzero eq_refl). reflexivity.
Defined.

(** With no fee, but on a position whose quantity and total cost have
    overflowed (two purchases of [float("1e308")] units at price 1): the
    conversion returns and the value it realizes is NaN, not 0. *)
Example conversion_zero_fee_overflow :
  let self :=
    Binary64.Portfolio.Build
      {[ "BTC" := Binary64.Investment.Build infinity infinity [] ]} "SEK" [] in
  let out :=
    Binary64.Portfolio.add_transaction "convert" "BTC" 1 1 0
                                       "SEK" None (Some "ETH") self in
  Binary64.Investment.buy
    (Binary64.Investment.buy Binary64.Investment.init 1 Binary64.huge 0)
    1 Binary64.huge 0
    = Binary64.Investment.Build infinity infinity [] ∧
  out.2 = inr tt ∧
  Binary64.Investment.realized_profit_loss
    <$> (Binary64.Portfolio.investments out.1 !! "BTC") = Some [nan].
Proof. cbv zeta. repeat split; vm_compute; reflexivity. Qed.

(** Seven units bought at 2 with a fee of 3 cost 17 in all.  A conversion
    that spends exactly 17 needs [17 / (17 / 7)] units, which binary64
    rounds to 7.000000000000001: more than the 7 held, so the call
    raises. *)
Example convert_whole_position_refused :
  let btc := Binary64.Investment.buy Binary64.Investment.init 2 7 3 in
  let self := Binary64.Portfolio.Build {[ "BTC" := btc ]} "SEK" [] in
  let out :=
    Binary64.Portfolio.add_transaction "convert" "BTC" 17 1 0
                                       "SEK" None (Some "ETH") self in
  btc = Binary64.Investment.Build 7 17 [] ∧
  (7 <? 17 / (17 / 7))%float = true ∧
  out = (self, inl InsufficientHoldings).
Proof. cbv zeta. repeat split; vm_compute; reflexivity. Qed.

(** C10, as stated, fails when the destination is the source asset: the
    price of the sell record is read from the position after both legs, and
    the buy leg has then refilled the position that the sell leg emptied.
    One BTC held at 1000 is converted into 2 "BTC" at 500: the sell leg
    sells the whole unit, and the record's price is 500. *)
Lemma full_liquidation_price_not_zero :
  let src := Investment.Build 1 (Qc_of_Z 1000) [] in
  let self := Portfolio.Build {[ "BTC" := src ]} "SEK" [] in
  let out := Portfolio.add_transaction "convert" "BTC" (Qc_of_Z 500) 2 0
                                       "SEK" None (Some "BTC") self in
  let r1 := Transaction.Build None "sell" "BTC" None (Qc_of_Z 500) 1 0 "SEK" in
  out.2 = inr tt ∧
  Portfolio.transactions out.1 !! 0%nat = Some r1 ∧
  Transaction.quantity r1 = Investment.quantity src ∧
  Transaction.price r1 ≠ 0.
Proof. cbv zeta. repeat split; compute_done. Qed.

(** C10, amended.  In every conversion that returns, the price of the sell
    record is the average price of the source position read at the end of
    [handle_conversion], after the synthesized sell (and the buy) have
    mutated the positions; its quantity is the quantity sold.  For every
    conversion into another asset that sells the whole of the source
    position, that price is 0, while the average price the sale was made at
    was not. *)
Theorem conversion_sell_record_price asset price qty fee cur ts to_asset
    (self : Portfolio.t) :
  (Portfolio.add_transaction "convert" asset price qty fee cur ts to_asset self).2
    = inr tt →
  let self' :=
    (Portfolio.add_transaction "convert" asset price qty fee cur ts to_asset self).1 in
  ∃ (src : Investment.t) (r1 r2 r3 : Transaction.t),
    Portfolio.investments self !! asset = Some src ∧
    Portfolio.transactions self' = Portfolio.transactions self ++ [r1; r2; r3] ∧
    (Transaction.action r1 = "sell" ∧ Transaction.asset r1 = asset) ∧
    Transaction.quantity r1 = (price * qty + fee) / Investment.avg_price src ∧
    Transaction.price r1
      = Investment.avg_price (Portfolio.investments self' !!! asset) ∧
    (to_asset ≠ Some asset →
     Transaction.quantity r1 = Investment.quantity src →
     Transaction.price r1 = 0 ∧ Investment.avg_price src ≠ 0).
Proof.
  intros Hok. cbv zeta.
  destruct (add_transaction_convert_returns _ _ _ _ _ _ _ _ Hok)
    as (target & src & -> & _ & Hsrc & Havg & Hheld & ->).
  simpl. eexists src, _, _, _.
  split; [done|]. split; [reflexivity|]. simpl.
  do 3 (split; [done|]).
  intros Hother Hall. split; [|done].
  assert (Hne : target ≠ asset) by congruence.
  rewrite (lookup_total_correct _ _ _
             (converted_source _ _ _ _ _ _ _ _ Hsrc Hheld)).
  rewrite decide_False by done.
  apply avg_price_empty. simpl. rewrite Hall. ring.
Qed.

(** One BTC held at 1000 and converted, all of it, into 2 ETH at 500. *)
Lemma conversion_sell_record_price_witness :
  let btc := Investment.Build 1 (Qc_of_Z 1000) [] in
  let self := Portfolio.Build {[ "BTC" := btc ]} "SEK" [] in
  let out := Portfolio.add_transaction "convert" "BTC" (Qc_of_Z 500) 2 0
                                       "SEK" None (Some "ETH") self in
  out.2 = inr tt ∧
  ∃ r1 r2 r3 : Transaction.t,
    Portfolio.transactions out.1 = Portfolio.transactions self ++ [r1; r2; r3] ∧
    (Transaction.action r1 = "sell" ∧ Transaction.asset r1 = "BTC") ∧
    Transaction.quantity r1 = Investment.quantity btc ∧
    Transaction.price r1
      = Investment.avg_price (Portfolio.investments out.1 !!! "BTC") ∧
    Transaction.price r1 = 0 ∧
    Investment.avg_price btc ≠ 0.
Proof.
  intros btc self out.
  assert (H : out.2 = inr tt) by compute_done.
  split; [exact H|].
  destruct (conversion_sell_record_price "BTC" (Qc_of_Z 500) 2 0 "SEK" None
              (Some "ETH") self H)
    as (src & r1 & r2 & r3 & Hsrc & Htxs & Hsell & Hqty & Hprice & Hfull).
  assert (Hbtc : src = btc).
  { apply (inj Some). by rewrite <- Hsrc. }
  subst src.
  assert (Hall : Transaction.quantity r1 = Investment.quantity btc).
  { rewrite Hqty. compute_done. }
  exists r1, r2, r3.
  do 4 (split; [done|]).
  apply Hfull; [done | exact Hall].
Defined.

(** The same conversion in numbers: the position is emptied and the sell
    record carries the price 0, not the 1000 the unit was sold at. *)
Example full_liquidation_record :
  let self :=
    Portfolio.Build {[ "BTC" := Investment.Build 1 (Qc_of_Z 1000) [] ]}
                    "SEK" [] in
  let out := Portfolio.add_transaction "convert" "BTC" (Qc_of_Z 500) 2 0
                                       "SEK" None (Some "ETH") self in
  Portfolio.investments out.1 !! "BTC" = Some (Investment.Build 0 0 [0]) ∧
  Portfolio.transactions out.1 !! 0%nat
    = Some (Transaction.Build None "sell" "BTC" None 0 1 0 "SEK").
Proof. cbv zeta. split; compute_done. Qed.

(** ** Holdings never go below zero (C9) *)

(** C9, as stated, fails on the numbers the program computes with.  Two
    purchases of [float("1e308")] units at price 1 make the quantity and
    the total cost of the position infinite; a conversion of that position
    then computes [inf / inf], which is NaN, passes both tests (a comparison
    with NaN is false), and leaves NaN as the quantity: [quantity >= 0] is
    false. *)
Lemma holdings_quantity_nan :
  let rs :=
    [ Binary64.Request.Build "buy" "BTC" 1 Binary64.huge 0 "SEK" None None;
      Binary64.Request.Build "buy" "BTC" 1 Binary64.huge 0 "SEK" None None;
      Binary64.Request.Build "convert" "BTC" 1 1 0 "SEK" None (Some "ETH") ] in
  let after := Binary64.states_after (Binary64.Portfolio.init "SEK") rs in
  let quantity :=
    Binary64.Investment.quantity
      <$> (Binary64.Portfolio.investments <$> last after) ≫= (.!! "BTC") in
  Forall Binary64.well_formed rs ∧
  quantity = Some nan ∧
  (0 <=? default 0 quantity)%float = false.
Proof.
  cbv zeta. split; [repeat constructor|]. split; vm_compute; reflexivity.
Qed.

(** C9, amended.  Start from a new portfolio and make any sequence of
    calls whose quantities are above 0 and whose prices and fees are not
    below 0.  After every call of the sequence, one that returned or one
    that raised, no position holds a quantity below 0: every quantity is
    [>= 0], or it is NaN (which it can become once an amount has
    overflowed). *)
Theorem holdings_never_below_zero (base_currency : string)
    (rs : list Binary64.Request.t) :
  Forall Binary64.well_formed rs →
  Forall Binary64.holdings_not_negative
         (Binary64.states_after (Binary64.Portfolio.init base_currency) rs).
Proof.
  intros Hrs. apply holdings_not_negative_states; [|done].
  unfold Binary64.holdings_not_negative. simpl. apply map_Forall_empty.
Qed.

Lemma holdings_never_below_zero_witness :
  Forall Binary64.well_formed Binary64.sample_requests ∧
  Forall Binary64.holdings_not_negative
         (Binary64.states_after (Binary64.Portfolio.init "SEK")
                                Binary64.sample_requests).
Proof.
  assert (H : Forall Binary64.well_formed Binary64.sample_requests)
    by (repeat constructor).
  split; [exact H|].
  exact (holdings_never_below_zero "SEK" Binary64.sample_requests H).
Defined.

(** What the sample run leaves: the sale of 20 was refused, the conversion
    took 600 / 100.5 units of BTC for 2 ETH, and the sale of the 2 ETH
    emptied that position. *)
Example sample_run :
  let after :=
    Binary64.states_after (Binary64.Portfolio.init "SEK")
                          Binary64.sample_requests in
  let quantity_of asset :=
    Binary64.Investment.quantity
      <$> (Binary64.Portfolio.investments <$> last after) ≫= (.!! asset) in
  quantity_of "BTC" = Some (10 - 600 / (201 / 2))%float ∧
  quantity_of "ETH" = Some 0%float ∧
  quantity_of "SOL" = Some 4%float.
Proof. cbv zeta. repeat split; vm_compute; reflexivity. Qed.

(** * Further properties of [Investment] *)

Section investment_more.
Import Investment.
Implicit Types (self : Investment.t) (price qty fee : Qc).

Lemma total_realized_snoc (l : list Qc) (x : Qc) :
  foldl Qcplus 0 (l ++ [x]) = foldl Qcplus 0 l + x.
Proof. by rewrite foldl_app. Qed.

End investment_more.

(** X3 (selling everything).  A sale of all the units a position holds, a
    finite number of them, returns; the quantity left is exactly 0, and so
    is the average price.  The total cost left is
    [total_cost - avg_price * quantity] as binary64 computes it. *)
Theorem full_sale_leaves_no_units (self : Binary64.Investment.t)
    (price fee : float) :
  is_finite (Binary64.Investment.quantity self) = true →
  let qty := Binary64.Investment.quantity self in
  let avg := Binary64.Investment.avg_price self in
  let out := Binary64.Investment.sell self price qty fee in
  out.2 = inr ((price * qty - fee) - avg * qty)%float ∧
  Binary64.Investment.quantity out.1 = 0%float ∧
  Binary64.Investment.avg_price out.1 = 0%float ∧
  Binary64.Investment.total_cost out.1
    = (Binary64.Investment.total_cost self - avg * qty)%float.
Proof.
  intros Hfinite. cbv zeta.
  rewrite sell_returns by apply ltb_irrefl. cbv zeta. simpl.
  split; [done|]. split; [by apply sub_diag_finite|]. split; [|done].
  unfold Binary64.Investment.avg_price. simpl.
  by rewrite (sub_diag_finite _ Hfinite), eqb_zero_refl.
Qed.

(** Seven units bought at 4 with a fee of 1, all seven sold at 5. *)
Lemma full_sale_leaves_no_units_witness :
  let self := Binary64.Investment.buy Binary64.Investment.init 4 7 1 in
  let out := Binary64.Investment.sell self 5 7 0 in
  is_finite (Binary64.Investment.quantity self) = true ∧
  Binary64.Investment.quantity out.1 = 0%float ∧
  Binary64.Investment.avg_price out.1 = 0%float.
Proof.
  intros self out.
  assert (H : is_finite (Binary64.Investment.quantity self) = true)
    by reflexivity.
  split; [exact H|].
  destruct (full_sale_leaves_no_units self 5 0 H) as (_ & Hq & Havg & _).
  by split.
Defined.

(** The same sale in numbers: the average price 29/7 is rounded, seven
    times it is not 29, and the emptied position keeps a total cost of
    [-2^-48], about -3.55e-15. *)
Example full_sale_residue :
  let self := Binary64.Investment.buy Binary64.Investment.init 4 7 1 in
  let out := Binary64.Investment.sell self 5 7 0 in
  Binary64.Investment.total_cost self = 29%float ∧
  out.1 = Binary64.Investment.Build 0 (-0x1p-48) [0x1.7fffffffffffcp+2]%float ∧
  (Binary64.Investment.total_cost out.1 <? 0)%float = true.
Proof. cbv zeta. repeat split. Qed.

(** X4 (the realized total follows the sales).  Whatever [sell] is called
    with, the total realized profit or loss of the position after the call
    is the total before it plus what the call returned; a call that raised
    adds nothing. *)
Theorem sell_adds_to_realized_total (self : Investment.t) (price qty fee : Qc) :
  let out := Investment.sell self price qty fee in
  Investment.total_realized_profit_loss out.1 =
    Investment.total_realized_profit_loss self
      + match out.2 with inr profit_loss => profit_loss | inl _ => 0 end.
Proof.
  cbv zeta. unfold Investment.sell, Investment.total_realized_profit_loss.
  case_decide; simpl.
  - ring.
  - apply total_realized_snoc.
Qed.

(** * Further properties of [Portfolio] *)

Section portfolio_more.
Import Portfolio.
Implicit Types (self : Portfolio.t) (m : gmap string Investment.t).
Implicit Types (action asset target cur : string) (ts : Timestamp).
Implicit Types (price qty fee qts : Qc) (inv src : Investment.t).

Lemma ensure_entry_position asset self :
  ensure_entry asset (investments self) !! asset = Some (position self asset).
Proof. apply ensure_entry_lookup. Qed.

Lemma ensure_entry_position_total asset self :
  ensure_entry asset (investments self) !!! asset = position self asset.
Proof. apply lookup_total_correct, ensure_entry_position. Qed.

(** Every call of [add_transaction] takes one of the paths of [call_view]. *)
Lemma add_transaction_view action asset price qty fee cur ts to_asset self :
  call_view action asset price qty fee cur ts to_asset self
    (add_transaction action asset price qty fee cur ts to_asset self).
Proof.
  rewrite add_transaction_unfold. cbv zeta. unfold ensured at 1 2 3. simpl.
  rewrite ensure_entry_position_total.
  case_decide as Hbuy; [by apply View_buy|].
  case_decide as Hsell.
  { destruct (decide (Investment.quantity (position self asset) < qty))
      as [Hlt|Hge].
    - rewrite sell_raises by done.
      replace (Build _ _ _) with (ensured asset self).
      + by apply View_oversell.
      + unfold ensured. f_equal. symmetry. apply insert_id.
        apply ensure_entry_position.
    - pose proof (View_sell action asset price qty fee cur ts to_asset self
                    Hsell Hge) as Hview.
      rewrite sell_ok in Hview |- * by done. exact Hview. }
  case_decide as Hdep; [by apply View_deposit|].
  case_decide as Hconv; [|by apply View_unknown].
  destruct to_asset as [target|]; [|apply View_no_target; auto].
  case_decide as Htarget; [subst target; apply View_no_target; auto|].
  rewrite handle_conversion_unfold. unfold ensured at 1. simpl.
  rewrite ensure_entry_position. cbv zeta.
  case_decide as Havg; [by eapply View_zero_division|].
  case_decide as Hheld; [by eapply View_not_enough|].
  simpl. rewrite <- app_assoc. simpl.
  by apply (View_convert action asset price qty fee cur ts (Some target) self
              target).
Qed.

Lemma converted_other asset target qts qty price fee m k :
  k ≠ asset → k ≠ target →
  converted asset target qts qty price fee m !! k = m !! k.
Proof.
  intros Hasset Htarget. unfold converted. cbv zeta.
  rewrite lookup_insert_ne by done.
  rewrite ensure_entry_other by done.
  by rewrite lookup_insert_ne.
Qed.

Lemma converted_target asset target qts qty price fee m :
  target ≠ asset →
  converted asset target qts qty price fee m !! target =
    Some (Investment.buy (default Investment.init (m !! target)) price qty 0).
Proof.
  intros Hne. unfold converted. cbv zeta.
  rewrite lookup_insert_eq, ensure_entry_total, lookup_total_alt.
  by rewrite lookup_insert_ne.
Qed.

Lemma wrote_lookup asset inv recs self :
  investments (wrote asset inv recs self) !! asset = Some inv.
Proof. apply lookup_insert_eq. Qed.

Lemma wrote_lookup_other asset inv recs self k :
  k ≠ asset →
  investments (wrote asset inv recs self) !! k = investments self !! k.
Proof.
  intros Hne. unfold wrote. simpl.
  by rewrite lookup_insert_ne, ensure_entry_other.
Qed.

Lemma ensured_lookup_other asset self k :
  k ≠ asset → investments (ensured asset self) !! k = investments self !! k.
Proof. intros Hne. unfold ensured. simpl. by rewrite ensure_entry_other. Qed.

Lemma position_present asset self inv :
  investments self !! asset = Some inv → position self asset = inv.
Proof. intros H. unfold position. by rewrite H. Qed.

End portfolio_more.

(** X5 (what a call appends).  A call that raises appends nothing.  A
    buy, a sale or a deposit that returns appends one record, a conversion
    that returns appends three, and the last record appended is always the
    one that repeats the arguments of the call. *)
Theorem audit_trail_step action asset price qty fee cur ts to_asset
    (self : Portfolio.t) :
  let out :=
    Portfolio.add_transaction action asset price qty fee cur ts to_asset self in
  match out.2 with
  | inl _ => Portfolio.transactions out.1 = Portfolio.transactions self
  | inr _ =>
      ∃ legs : list Transaction.t,
        Portfolio.transactions out.1 =
          Portfolio.transactions self ++ legs
            ++ [Transaction.Build ts action asset (Some to_asset) price qty
                                  fee cur] ∧
        length legs = if decide (action = "convert") then 2%nat else 0%nat
  end.
Proof.
  cbv zeta.
  destruct (add_transaction_view action asset price qty fee cur ts to_asset self)
    as [-> | -> _ | | -> | | | | ? -> | ]; simpl; try done;
    try (by exists []).
  by eexists [_; _].
Qed.

(** X6 (the audit trail is append-only).  Over any sequence of calls,
    returning or raising, on any portfolio, the audit trail the sequence
    started from is a prefix of the audit trail after every call: records
    are added at the end and never changed or removed. *)
Theorem audit_trail_append_only (self : Portfolio.t) (rs : list Request.t) :
  Forall (λ self', Portfolio.transactions self
                     `prefix_of` Portfolio.transactions self')
         (states_after self rs).
Proof.
  revert self. induction rs as [|r rs IH]; intros self; simpl; [constructor|].
  assert (Hstep : Portfolio.transactions self
                    `prefix_of` Portfolio.transactions (call self r).1).
  { unfold call.
    destruct (add_transaction_view (Request.action r) (Request.asset r)
                (Request.price r) (Request.quantity r) (Request.fee r)
                (Request.transaction_currency r) (Request.timestamp r)
                (Request.to_asset r) self); simpl;
      by (done || eexists). }
  constructor; [done|].
  eapply Forall_impl; [apply IH|]. simpl.
  intros self' H. by etrans.
Qed.

(** X7 (a call touches the positions it names, and no other).  Whatever
    the call and however it ends, the entry of every asset other than
    [asset] and [to_asset] is after the call what it was before, present or
    absent, and the base currency is unchanged. *)
Theorem other_positions_untouched action asset price qty fee cur ts to_asset
    (self : Portfolio.t) (k : string) :
  k ≠ asset → to_asset ≠ Some k →
  let out :=
    Portfolio.add_transaction action asset price qty fee cur ts to_asset self in
  Portfolio.investments out.1 !! k = Portfolio.investments self !! k ∧
  Portfolio.base_currency out.1 = Portfolio.base_currency self.
Proof.
  intros Hasset Hto. cbv zeta.
  destruct (add_transaction_view action asset price qty fee cur ts to_asset self)
    as [ | | | | | | | target _ -> _ _ _ qts m' | ];
    cbn [fst snd];
    try (split; [by apply wrote_lookup_other | done]);
    try (split; [by apply ensured_lookup_other | done]).
  split; [|done]. subst m'. cbn [Portfolio.investments].
  rewrite converted_other by congruence.
  by apply ensure_entry_other.
Qed.

(** A conversion of BTC into ETH next to a position in SOL. *)
Lemma other_positions_untouched_witness :
  let sol := Investment.Build (Qc_of_Z 4) (Qc_of_Z 80) [1] in
  let self :=
    Portfolio.Build {[ "BTC" := Investment.Build 1 (Qc_of_Z 1000) [];
                       "SOL" := sol ]} "SEK" [] in
  let out := Portfolio.add_transaction "convert" "BTC" (Qc_of_Z 300) 2 0
                                       "SEK" None (Some "ETH") self in
  ("SOL" ≠ "BTC" ∧ Some "ETH" ≠ Some "SOL") ∧
  Portfolio.investments out.1 !! "SOL" = Portfolio.investments self !! "SOL" ∧
  Portfolio.base_currency out.1 = Portfolio.base_currency self.
Proof.
  intros sol self out. split; [split; done|].
  apply (other_positions_untouched "convert" "BTC" (Qc_of_Z 300) 2 0 "SEK"
           None (Some "ETH") self "SOL"); done.
Defined.

(** X8 (positions and their history are kept).  No call, returning or
    raising, removes an entry: every asset that had a position still has
    one after the call, and the realized events the position had are a
    prefix of those it has now.  The asset of the call has an entry after
    the call even if it had none before and the call raised. *)
Theorem positions_and_history_kept action asset price qty fee cur ts to_asset
    (self : Portfolio.t) :
  let out :=
    Portfolio.add_transaction action asset price qty fee cur ts to_asset self in
  is_Some (Portfolio.get_investment out.1 asset) ∧
  ∀ k inv,
    Portfolio.get_investment self k = Some inv →
    ∃ inv', Portfolio.get_investment out.1 k = Some inv' ∧
            Investment.realized_profit_loss inv
              `prefix_of` Investment.realized_profit_loss inv'.
Proof.
  cbv zeta. unfold Portfolio.get_investment.
  assert (Hwrote : ∀ inv0 recs,
    Investment.realized_profit_loss (position self asset)
      `prefix_of` Investment.realized_profit_loss inv0 →
    is_Some (Portfolio.investments (wrote asset inv0 recs self) !! asset) ∧
    ∀ k inv, Portfolio.investments self !! k = Some inv →
      ∃ inv', Portfolio.investments (wrote asset inv0 recs self) !! k = Some inv' ∧
              Investment.realized_profit_loss inv
                `prefix_of` Investment.realized_profit_loss inv').
  { intros inv0 recs Hpre. split; [by rewrite wrote_lookup|].
    intros k inv Hk. destruct (decide (k = asset)) as [->|Hne].
    - exists inv0. split; [apply wrote_lookup|].
      by rewrite <- (position_present _ _ _ Hk).
    - exists inv. by rewrite wrote_lookup_other. }
  assert (Hensured :
    is_Some (Portfolio.investments (ensured asset self) !! asset) ∧
    ∀ k inv, Portfolio.investments self !! k = Some inv →
      ∃ inv', Portfolio.investments (ensured asset self) !! k = Some inv' ∧
              Investment.realized_profit_loss inv
                `prefix_of` Investment.realized_profit_loss inv').
  { split; [unfold ensured; simpl; by rewrite ensure_entry_position|].
    intros k inv Hk. exists inv. split; [|done].
    by apply ensure_entry_keeps. }
  destruct (add_transaction_view action asset price qty fee cur ts to_asset self)
    as [ | _ Hheld | | | | | | target _ -> Htarget Havg Hheld | ];
    try done; try (by apply Hwrote).
  - apply Hwrote. rewrite sell_ok by done. simpl. by apply prefix_app_r.
  - subst m' qts. simpl.
    pose proof (converted_source asset target _ qty price fee _ _
                  (ensure_entry_position asset self) Hheld) as Hsrc.
    split; [by rewrite Hsrc|].
    intros k inv Hk. destruct (decide (k = asset)) as [->|Hasset].
    + rewrite Hsrc. eexists. split; [done|].
      rewrite (position_present _ _ _ Hk).
      case_decide; simpl; by apply prefix_app_r.
    + destruct (decide (k = target)) as [->|Hother].
      * rewrite converted_target by done. eexists. split; [done|]. simpl.
        rewrite ensure_entry_other by done. by rewrite Hk.
      * rewrite converted_other by done.
        exists inv. split; [|done]. by apply ensure_entry_keeps.
Qed.

(** X9 (which exception, and when).  [add_transaction] raises
    - [UnknownAction] exactly for an action that is none of the four;
    - [MissingConversionTarget] exactly for a conversion whose [to_asset]
      is [None] or empty;
    - [ZeroDivisionError] exactly for a conversion with a target whose
      source position has average price 0 (an asset never seen, an emptied
      position, or units that cost nothing);
    - [InsufficientHoldings] exactly for a sale of more than is held and
      for a conversion that needs more of the source than is held;
    and never [NoHoldings] nor [InvalidAction].  In every other case it
    returns. *)
Theorem add_transaction_exceptions action asset price qty fee cur ts to_asset
    (self : Portfolio.t) :
  let out :=
    Portfolio.add_transaction action asset price qty fee cur ts to_asset self in
  let pos := position self asset in
  let target_given := ∃ target, to_asset = Some target ∧ target ≠ "" in
  (out.2 = inl UnknownAction ↔
     action ≠ "buy" ∧ action ≠ "sell" ∧ action ≠ "deposit" ∧ action ≠ "convert") ∧
  (out.2 = inl MissingConversionTarget ↔
     action = "convert" ∧ (to_asset = None ∨ to_asset = Some "")) ∧
  (out.2 = inl ZeroDivisionError ↔
     action = "convert" ∧ target_given ∧ Investment.avg_price pos = 0) ∧
  (out.2 = inl InsufficientHoldings ↔
     (action = "sell" ∧ Investment.quantity pos < qty) ∨
     (action = "convert" ∧ target_given ∧ Investment.avg_price pos ≠ 0 ∧
      Investment.quantity pos
        < (price * qty + fee) / Investment.avg_price pos)) ∧
  out.2 ≠ inl NoHoldings ∧
  out.2 ≠ inl InvalidAction.
Proof.
  cbv zeta.
  destruct (add_transaction_view action asset price qty fee cur ts to_asset self)
    as [ -> | -> Hheld | -> Hlt | -> | -> [-> | ->] | target -> -> Htarget Havg
       | target -> -> Htarget Havg Hlt | target -> -> Htarget Havg Hheld
       | Hbuy Hsell Hdep Hconv ];
    cbn [fst snd]; repeat split; try done;
    try (intuition (try congruence; eauto 6); fail);
    try (intros [[? _]|(? & _)]; congruence);
    try (intros (? & (? & ? & ?) & ?); congruence);
    intros [[? _]|(_ & (? & ? & ?) & _)]; congruence.
Qed.

(** * [compute_taxes.py] *)

(** ** [extract_to_asset_from_notes] *)

Example split_note :
  split_on " " "Converted BTC to ETH" = ["Converted"; "BTC"; "to"; "ETH"].
Proof. reflexivity. Qed.

Example split_spaces : split_on " " " a  b " = [""; "a"; ""; "b"; ""].
Proof. reflexivity. Qed.

Example extract_docstring_note :
  extract_to_asset_from_notes (Some "Converted BTC to ETH") "BTC" = Some "ETH".
Proof. reflexivity. Qed.

Section notes.
Implicit Types (s w t from_asset : string) (ws pre post parts : list string).

Lemma split_on_nonempty sep s : split_on sep s ≠ [].
Proof.
  destruct s as [|c s]; simpl; [done|].
  destruct (Ascii.eqb c sep); [done|]. by destruct (split_on sep s).
Qed.

Lemma list_find_first pre rest :
  "to" ∉ pre →
  list_find (λ part, part = "to") (pre ++ "to" :: rest)
    = Some (length pre, "to").
Proof.
  induction pre as [|w pre IH]; intros Hpre; simpl.
  - done.
  - apply not_elem_of_cons in Hpre as [Hw Hpre].
    rewrite decide_False by done. by rewrite IH.
Qed.

Lemma list_find_split parts i w :
  list_find (λ part, part = "to") parts = Some (i, w) →
  w = "to" ∧ parts = take i parts ++ "to" :: drop (S i) parts ∧
  "to" ∉ take i parts.
Proof.
  intros (Hi & -> & Hfirst)%list_find_Some. split; [done|]. split.
  - by rewrite take_drop_middle.
  - intros (j & Hj)%list_elem_of_lookup.
    apply lookup_take_Some in Hj as [Hj Hlt].
    by apply (Hfirst j "to").
Qed.

End notes.

(** X14 (what [extract_to_asset_from_notes] returns).  The function
    returns a string [t] exactly when the note, cut at its spaces, has a
    piece ["to"], the piece right after the first ["to"] is [t], and [t] is
    not the source asset.  In every other case (no note, empty note, no
    ["to"], nothing after it, or the source asset after it) it returns
    [None]; in particular it never returns the source asset. *)
Theorem extract_to_asset_from_notes_spec (notes : option string)
    (from_asset t : string) :
  extract_to_asset_from_notes notes from_asset = Some t ↔
  ∃ (s : string) (pre post : list string),
    notes = Some s ∧
    split_on " " s = pre ++ "to" :: t :: post ∧
    ("to" ∉ pre) ∧
    t ≠ from_asset.
Proof.
  unfold extract_to_asset_from_notes. split.
  - destruct notes as [s|]; [|done].
    case_decide as Hempty; [done|]. cbv zeta.
    case_decide as Hin; [|done].
    destruct (list_find _ _) as [[i w]|] eqn:Hfind; [|done].
    case_decide as Hlen; [|done].
    destruct (split_on " " s !! (i + 1)%nat) as [t'|] eqn:Hnext; [|done].
    case_decide as Hne; [|done]. intros [= ->].
    destruct (list_find_split _ _ _ Hfind) as (_ & Hparts & Hpre).
    exists s, (take i (split_on " " s)), (drop (S (S i)) (split_on " " s)).
    repeat split; try done.
    rewrite Hparts at 1. do 2 f_equal.
    replace (i + 1)%nat with (S i) in Hnext by lia.
    rewrite <- (take_drop_middle _ _ _ Hnext) at 1.
    rewrite drop_app_length'; [done|].
    rewrite length_take. apply lookup_lt_Some in Hnext. lia.
  - intros (s & pre & post & -> & Hparts & Hpre & Hne).
    rewrite decide_False.
    2:{ intros ->. simpl in Hparts. by destruct pre as [|? [|]]. }
    cbv zeta. rewrite Hparts.
    rewrite decide_True by set_solver.
    rewrite list_find_first by done.
    rewrite decide_True by (rewrite length_app; simpl; lia).
    rewrite lookup_app_r by lia.
    replace (length pre + 1 - length pre)%nat with 1%nat by lia. simpl.
    by rewrite decide_True.
Qed.

Section words.
Implicit Types (s w b from_asset : string) (ws pre post : list string).

Lemma split_on_word w : space_free w → split_on " " w = [w].
Proof.
  unfold space_free. induction w as [|c w IH]; simpl; [done|].
  intros [Hc Hw]%Forall_cons.
  apply Ascii.eqb_neq in Hc. rewrite Hc. by rewrite IH.
Qed.

Lemma split_on_word_space w s :
  space_free w →
  split_on " " (String.append w (String " " s)) = w :: split_on " " s.
Proof.
  unfold space_free. induction w as [|c w IH]; simpl; [done|].
  intros [Hc Hw]%Forall_cons.
  apply Ascii.eqb_neq in Hc. rewrite Hc. by rewrite IH.
Qed.

(** Cutting at the spaces undoes joining with spaces. *)
Lemma split_on_concat ws :
  ws ≠ [] → Forall space_free ws →
  split_on " " (String.concat " " ws) = ws.
Proof.
  induction ws as [|w ws IH]; [done|]. intros _ [Hw Hws]%Forall_cons.
  destruct ws as [|w' ws].
  - simpl. by apply split_on_word.
  - change (String.concat " " (w :: w' :: ws))
      with (String.append w (String " " (String.concat " " (w' :: ws)))).
    rewrite split_on_word_space by done. by rewrite IH.
Qed.

End words.

(** X15 (notes made of words).  For a note made of words without spaces
    joined by single spaces, in which ["to"] occurs as a word and is
    followed by a word [b], [extract_to_asset_from_notes] returns [b], the
    word after the first ["to"], unless [b] is the source asset, in which
    case it returns [None] whatever comes after. *)
Theorem extract_to_asset_from_words (pre post : list string)
    (b from_asset : string) :
  Forall space_free (pre ++ "to" :: b :: post) →
  "to" ∉ pre →
  extract_to_asset_from_notes
    (Some (String.concat " " (pre ++ "to" :: b :: post))) from_asset
  = if decide (b = from_asset) then None else Some b.
Proof.
  intros Hwords Hpre. unfold extract_to_asset_from_notes.
  assert (Hsplit : split_on " " (String.concat " " (pre ++ "to" :: b :: post))
                   = pre ++ "to" :: b :: post).
  { apply split_on_concat; [|done]. by destruct pre. }
  rewrite decide_False.
  2:{ intros Hempty. rewrite Hempty in Hsplit. simpl in Hsplit.
      by destruct pre as [|? [|]]. }
  cbv zeta. rewrite Hsplit.
  rewrite decide_True by set_solver.
  rewrite list_find_first by done.
  rewrite decide_True by (rewrite length_app; simpl; lia).
  rewrite lookup_app_r by lia.
  replace (length pre + 1 - length pre)%nat with 1%nat by lia. simpl.
  by repeat case_decide.
Qed.

(** The note of the docstring, read for a conversion out of BTC, and a
    note that names the source asset after ["to"]. *)
Lemma extract_to_asset_from_words_witness :
  (Forall space_free (["Converted"; "BTC"] ++ "to" :: "ETH" :: []) ∧
   "to" ∉ ["Converted"; "BTC"]) ∧
  extract_to_asset_from_notes (Some "Converted BTC to ETH") "BTC" = Some "ETH" ∧
  extract_to_asset_from_notes (Some "Converted ETH to BTC to SOL") "BTC" = None.
Proof.
  split; [split; [compute_done | compute_done]|]. split.
  - apply (extract_to_asset_from_words ["Converted"; "BTC"] [] "ETH" "BTC");
      [compute_done | compute_done].
  - apply (extract_to_asset_from_words ["Converted"; "ETH"] ["to"; "SOL"]
             "BTC" "BTC"); [compute_done | compute_done].
Defined.

(** ** The loop of [process_coinbase_csv] *)

Lemma extract_to_asset_not_source notes from_asset t :
  extract_to_asset_from_notes notes from_asset = Some t → t ≠ from_asset.
Proof.
  unfold extract_to_asset_from_notes.
  destruct notes as [s|]; [|done].
  case_decide; [done|]. cbv zeta. case_decide; [|done].
  destruct (list_find _ _) as [[i w]|]; [|done].
  case_decide; [|done].
  destruct (_ !! _) as [t'|]; [|done].
  case_decide; [|done]. by intros [= <-].
Qed.

(** The four kinds of call a row can lead to. *)
Lemma row_request_inv (row : Row.t) (r : Request.t) :
  row_request row = Some r →
  ∃ quantity,
    Row.quantity_transacted row = Some quantity ∧
    let price := default 0 (Row.price_at_transaction row) in
    let fee := default 0 (Row.fees row) in
    let asset := Row.asset row in
    let ts := Row.timestamp row in
    r = Request.Build "buy" asset price quantity fee "SEK" ts None ∨
    r = Request.Build "sell" asset price quantity fee "SEK" ts None ∨
    (r = Request.Build "deposit" asset 0 quantity 0 "SEK" ts None ∧
     asset ≠ "SEK") ∨
    (∃ target,
       r = Request.Build "convert" asset price quantity fee "SEK" ts (Some target) ∧
       target ≠ "" ∧ target ≠ asset).
Proof.
  unfold row_request.
  destruct (Row.quantity_transacted row) as [quantity|]; [|done].
  cbv zeta. intros H. exists quantity. split; [done|].
  case_decide; [left; congruence|].
  case_decide; [right; left; congruence|].
  case_decide.
  { case_decide; [done|]. right; right; left. split; [congruence|done]. }
  case_decide; [|done].
  destruct (extract_to_asset_from_notes _ _) as [target|] eqn:Hto; [|done].
  case_decide; [done|].
  right; right; right. exists target. split; [congruence|]. split; [done|].
  by eapply extract_to_asset_not_source.
Qed.

(** X16 (what a row can ask of the ledger).  A row that is not skipped
    leads to a call with one of the four actions, on the row's asset and
    with the row's quantity.  A call carries a [to_asset] exactly when it
    is a conversion, and that [to_asset] is then neither empty nor the
    source asset.  A deposit is never of ["SEK"] and carries price 0 and
    fee 0, whatever the row says. *)
Theorem row_request_shape (row : Row.t) (r : Request.t) :
  row_request row = Some r →
  Request.action r ∈ ["buy"; "sell"; "deposit"; "convert"] ∧
  Request.asset r = Row.asset row ∧
  Row.quantity_transacted row = Some (Request.quantity r) ∧
  match Request.to_asset r with
  | Some target =>
      Request.action r = "convert" ∧ target ≠ "" ∧ target ≠ Request.asset r
  | None => Request.action r ≠ "convert"
  end ∧
  (Request.action r = "deposit" →
   Request.price r = 0 ∧ Request.fee r = 0 ∧ Request.asset r ≠ "SEK").
Proof.
  intros (quantity & Hq & H)%row_request_inv. cbv zeta in H.
  destruct H as [-> | [-> | [[-> Hsek] | (target & -> & Hne & Hsrc)]]]; simpl;
    repeat split; try done; compute_done.
Qed.

Lemma row_request_shape_witness :
  let row := Row.Build "Convert" None "BTC" (Some 2) (Some (Qc_of_Z 300)) None
                       (Some "Converted BTC to ETH") in
  let r := Request.Build "convert" "BTC" (Qc_of_Z 300) 2 0 "SEK" None
                         (Some "ETH") in
  row_request row = Some r ∧
  Request.action r ∈ ["buy"; "sell"; "deposit"; "convert"] ∧
  Request.asset r = Row.asset row ∧
  Row.quantity_transacted row = Some (Request.quantity r) ∧
  match Request.to_asset r with
  | Some target =>
      Request.action r = "convert" ∧ target ≠ "" ∧ target ≠ Request.asset r
  | None => Request.action r ≠ "convert"
  end ∧
  (Request.action r = "deposit" →
   Request.price r = 0 ∧ Request.fee r = 0 ∧ Request.asset r ≠ "SEK").
Proof.
  intros row r.
  assert (H : row_request row = Some r) by compute_done.
  split; [exact H|]. exact (row_request_shape row r H).
Defined.

(** X17 (the exceptions the loop can meet).  For a call that comes from a
    row, [add_transaction] returns or raises [InsufficientHoldings] or
    [ZeroDivisionError]: the tests of the loop exclude every other
    exception, on any portfolio.  A buy and a deposit always return. *)
Theorem row_call_exceptions (portfolio : Portfolio.t) (row : Row.t)
    (r : Request.t) :
  row_request row = Some r →
  ((call portfolio r).2 = inr tt ∨
   (call portfolio r).2 = inl InsufficientHoldings ∨
   (call portfolio r).2 = inl ZeroDivisionError) ∧
  (Request.action r = "buy" ∨ Request.action r = "deposit" →
   (call portfolio r).2 = inr tt).
Proof.
  intros (quantity & Hq & H)%row_request_inv. cbv zeta in H. unfold call.
  destruct H as [-> | [-> | [[-> Hsek] | (target & -> & Hne & Hsrc)]]];
    cbn [Request.action Request.asset Request.price Request.quantity
         Request.fee Request.transaction_currency Request.timestamp
         Request.to_asset];
    match goal with
    | |- context [Portfolio.add_transaction ?a ?b ?c ?d ?e ?f ?g ?h ?s] =>
        destruct (add_transaction_view a b c d e f g h s)
          as [ | | | | ? [?|?] | | | | ]
    end; cbn [fst snd]; try done; try (split; [auto|]; intros [?|?]; done);
      try congruence.
Qed.

Lemma row_call_exceptions_witness :
  let row := Row.Build "Sell" None "BTC" (Some 2) (Some (Qc_of_Z 300)) None None in
  let r := Request.Build "sell" "BTC" (Qc_of_Z 300) 2 0 "SEK" None None in
  let portfolio := Portfolio.init "SEK" in
  row_request row = Some r ∧
  ((call portfolio r).2 = inr tt ∨
   (call portfolio r).2 = inl InsufficientHoldings ∨
   (call portfolio r).2 = inl ZeroDivisionError) ∧
  (Request.action r = "buy" ∨ Request.action r = "deposit" →
   (call portfolio r).2 = inr tt).
Proof.
  intros row r portfolio.
  assert (H : row_request row = Some r) by compute_done.
  split; [exact H|]. exact (row_call_exceptions portfolio row r H).
Defined.

(** X18 (holdings through the loop).  If every row that has a quantity
    has one above 0, then after every row of the file, applied, skipped or
    failed, no position of the portfolio holds a quantity below 0: every
    quantity is [>= 0], or NaN once an amount has overflowed. *)
Theorem process_rows_holdings_not_negative (rows : list Binary64.Row.t) :
  Forall (λ row,
            is_nan (Binary64.Row.quantity_transacted row) = false →
            (0 <? Binary64.Row.quantity_transacted row)%float = true) rows →
  Forall Binary64.holdings_not_negative
         (Binary64.process_rows (Binary64.Portfolio.init "SEK") rows).
Proof.
  intros Hrows.
  assert (Hinit : Binary64.holdings_not_negative (Binary64.Portfolio.init "SEK")).
  { unfold Binary64.holdings_not_negative. simpl. apply map_Forall_empty. }
  revert Hinit. generalize (Binary64.Portfolio.init "SEK").
  induction Hrows as [|row rows Hrow _ IH]; intros portfolio Hp; simpl;
    [constructor|].
  assert (Hnext : Binary64.holdings_not_negative
            match Binary64.row_request row with
            | Some r => (Binary64.call portfolio r).1
            | None => portfolio
            end).
  { destruct (Binary64.row_request row) as [r|] eqn:Hr; [|done].
    apply row_request_quantity in Hr as [Hnan Hq].
    apply holdings_not_negative_call; [done|].
    rewrite Hq. by apply Hrow. }
  constructor; [done|]. by apply IH.
Qed.

Lemma process_rows_holdings_not_negative_witness :
  Forall (λ row,
            is_nan (Binary64.Row.quantity_transacted row) = false →
            (0 <? Binary64.Row.quantity_transacted row)%float = true)
         Binary64.sample_rows ∧
  Forall Binary64.holdings_not_negative
         (Binary64.process_rows (Binary64.Portfolio.init "SEK")
                                Binary64.sample_rows).
Proof.
  assert (H : Forall (λ row,
                 is_nan (Binary64.Row.quantity_transacted row) = false →
                 (0 <? Binary64.Row.quantity_transacted row)%float = true)
                     Binary64.sample_rows).
  { repeat constructor; simpl; done. }
  split; [exact H|].
  exact (process_rows_holdings_not_negative Binary64.sample_rows H).
Defined.

(** What the sample rows leave: the sale of 5 was refused, the conversion
    took 900 / 1000.5 of a unit of BTC for 3 ETH at 300. *)
Example sample_rows_run :
  (λ p, (Binary64.Investment.quantity
           <$> Binary64.Portfolio.investments p !! "BTC",
         Binary64.Investment.quantity
           <$> Binary64.Portfolio.investments p !! "ETH",
         length (Binary64.Portfolio.transactions p)))
    <$> last (Binary64.process_rows (Binary64.Portfolio.init "SEK")
                                    Binary64.sample_rows)
  = Some (Some (2 - 900 / (2001 / 2))%float, Some 3%float, 4%nat).
Proof. vm_compute. reflexivity. Qed.

(** * [main.py] *)

(** ** [compute_isk_tax] *)






(** The same year in numbers: the tax is 30% of 3.62% of 103 000. *)
Example compute_isk_tax_sample :
  compute_isk_tax (replicate 4 (Qc_of_Z 100000)) (Qc_of_Z 12000)
                  (frac 262 10000)
  = Some (frac 111858 100).
Proof. compute_done. Qed.

(** ** [compute_isk] *)

(** The quarterly values collected so far, month by month: one after the
    first month of each quarter, four when the year ends. *)
Lemma quarter_count (k : nat) :
  let r := (k mod 12)%nat in
  let collected :=
    ((r + 2) / 3 + (if decide (r ∈ [0; 3; 6; 9]%nat) then 1 else 0))%nat in
  ((S k mod 12)%nat = 0%nat → collected = 4%nat) ∧
  ((S k mod 12)%nat ≠ 0%nat → collected = ((S k mod 12 + 2) / 3)%nat).
Proof.
  cbv zeta.
  assert (Hnext : (S k mod 12 = (k mod 12 + 1) mod 12)%nat).
  { rewrite <- Nat.add_1_r. by rewrite Nat.Div0.add_mod_idemp_l. }
  rewrite Hnext.
  pose proof (Nat.mod_upper_bound k 12 ltac:(done)) as Hr.
  remember (k mod 12)%nat as r eqn:Er. clear Er Hnext.
  do 12 (destruct r as [|r]; [vm_compute; split; first [done | lia]|]).
  lia.
Qed.

Section isk.
Variables (monthly_return capital monthly_investment gov_interest_rate : Qc).

Local Arguments Nat.modulo : simpl never.
Local Arguments Nat.div : simpl never.

(** What holds of the variables of the loop after [k] months. *)
Definition isk_inv (k : nat) (st : Isk.t) : Prop :=
  length (Isk.isk_values st) = S k ∧
  length (Isk.tax_paid_list st) = S k ∧
  length (Isk.total_gains_list st) = S k ∧
  length (Isk.quarterly_values st) = ((k mod 12 + 2) / 3)%nat ∧
  Isk.tax_paid_list st !! k = Some (Isk.total_tax_paid st) ∧
  (Isk.isk_values st !! 0%nat = Some capital ∧
   Isk.tax_paid_list st !! 0%nat = Some 0 ∧
   Isk.total_gains_list st !! 0%nat = Some 0) ∧
  (∀ i x, Isk.tax_paid_list st !! i = Some x → (S i ≤ k)%nat →
          (S i mod 12)%nat ≠ 0%nat →
          Isk.tax_paid_list st !! S i = Some x).

Lemma isk_inv_init :
  isk_inv 0 {| Isk.isk_value := capital;
               Isk.isk_values := [capital];
               Isk.quarterly_values := [];
               Isk.annual_deposits := 0;
               Isk.total_tax_paid := 0;
               Isk.tax_paid_list := [0];
               Isk.total_invested := capital;
               Isk.total_gains_list := [0] |}.
Proof.
  unfold isk_inv. simpl. repeat split; try done.
  intros i x _ Hi. lia.
Qed.

Lemma isk_month_inv (k : nat) (st : Isk.t) :
  isk_inv k st →
  ∃ st', isk_month monthly_return monthly_investment gov_interest_rate
                   (S k) st = Some st' ∧
         isk_inv (S k) st'.
Proof.
  intros (Hvalues & Htaxes & Hgains & Hquarters & Hpaid
          & (Hv0 & Ht0 & Hg0) & Hconst).
  unfold isk_month. cbv zeta.
  replace (S k - 1)%nat with k by lia.
  destruct (quarter_count k) as [Hyear Hmonth]. cbv zeta in Hyear, Hmonth.
  set (quarterly_values :=
         if decide ((k mod 12)%nat ∈ [0; 3; 6; 9]%nat)
         then Isk.quarterly_values st ++ [Isk.isk_value st]
         else Isk.quarterly_values st).
  assert (Hcollected : length quarterly_values =
            ((k mod 12 + 2) / 3
             + (if decide ((k mod 12)%nat ∈ [0; 3; 6; 9]%nat) then 1 else 0))%nat).
  { subst quarterly_values. case_decide.
    - by rewrite length_app, Hquarters.
    - by rewrite Hquarters, Nat.add_0_r. }
  assert (Hnew : ∀ (A : Type) (l : list A) (x : A),
            length l = S k → (l ++ [x]) !! S k = Some x).
  { intros A l x Hl. rewrite lookup_app_r by lia.
    by replace (S k - length l)%nat with 0%nat by lia. }
  assert (Hold : ∀ (A : Type) (l : list A) (x : A) i,
            length l = S k → (i ≤ k)%nat → (l ++ [x]) !! i = l !! i).
  { intros A l x i Hl Hi. apply lookup_app_l. lia. }
  destruct (decide ((S k mod 12)%nat = 0%nat)) as [Hend|Hmid].
  - (* the month that ends a year *)
    unfold compute_isk_tax.
    rewrite decide_True by (rewrite Hcollected; auto).
    cbv zeta. simpl. eexists. split; [reflexivity|].
    unfold isk_inv. simpl.
    rewrite !length_app, Hvalues, Htaxes, Hgains. simpl.
    rewrite Hend. simpl.
    repeat split; try lia; try done.
    + by apply Hnew.
    + by rewrite Hold by (done || lia).
    + by rewrite Hold by (done || lia).
    + by rewrite Hold by (done || lia).
    + intros i x Hx Hi Hmod.
      assert (i < k)%nat by (destruct (decide (i = k)) as [->|]; [done|lia]).
      rewrite Hold in Hx |- * by (done || lia). apply Hconst; [done|lia|done].
  - (* any other month *)
    simpl. eexists. split; [reflexivity|].
    unfold isk_inv. simpl.
    rewrite !length_app, Hvalues, Htaxes, Hgains. simpl.
    repeat split; try lia; try done;
      try (rewrite Hcollected; auto; fail).
    + by apply Hnew.
    + by rewrite Hold by (done || lia).
    + by rewrite Hold by (done || lia).
    + by rewrite Hold by (done || lia).
    + intros i x Hx Hi Hmod.
      destruct (decide (i = k)) as [->|Hne].
      * rewrite Hold in Hx by (done || lia).
        rewrite Hnew by done. congruence.
      * rewrite Hold in Hx |- * by (done || lia).
        apply Hconst; [done|lia|done].
Qed.

Lemma isk_loop_inv (n k : nat) (st : Isk.t) :
  isk_inv k st →
  ∃ st', isk_loop monthly_return monthly_investment gov_interest_rate
                  (seq (S k) n) st = Some st' ∧
         isk_inv (k + n) st'.
Proof.
  revert k st. induction n as [|n IH]; intros k st Hinv; simpl.
  - exists st. by rewrite Nat.add_0_r.
  - destruct (isk_month_inv k st Hinv) as (st1 & -> & Hinv1). simpl.
    destruct (IH (S k) st1 Hinv1) as (st' & Hloop & Hinv').
    exists st'. split; [done|].
    by replace (k + S n)%nat with (S k + n)%nat by lia.
Qed.

(** After the whole loop. *)
Lemma compute_isk_inv (years : Z) :
  ∃ st', compute_isk monthly_return capital monthly_investment
                     gov_interest_rate years
         = Some (Isk.isk_values st', Isk.tax_paid_list st',
                 Isk.total_gains_list st') ∧
         isk_inv (Z.to_nat (years * 12)) st'.
Proof.
  unfold compute_isk, months_of. cbv zeta.
  destruct (isk_loop_inv (Z.to_nat (years * 12)) 0 _ isk_inv_init)
    as (st' & -> & Hinv).
  by exists st'.
Qed.

End isk.

(** X20 (the simulation always returns).  Whatever the monthly return,
    the capital, the monthly investment, the government rate and the number
    of years, [compute_isk] returns: the [assert] of [compute_isk_tax]
    never fails, because the loop has collected exactly four quarterly
    values at the end of every year.  The three lists it returns have one
    entry per month plus one, and start with the capital, 0 and 0. *)
Theorem compute_isk_returns (monthly_return capital monthly_investment
    gov_interest_rate : Qc) (years : Z) :
  ∃ isk_values tax_paid_list total_gains_list : list Qc,
    compute_isk monthly_return capital monthly_investment gov_interest_rate
                years
      = Some (isk_values, tax_paid_list, total_gains_list) ∧
    length isk_values = S (Z.to_nat (years * 12)) ∧
    length tax_paid_list = S (Z.to_nat (years * 12)) ∧
    length total_gains_list = S (Z.to_nat (years * 12)) ∧
    isk_values !! 0%nat = Some capital ∧
    tax_paid_list !! 0%nat = Some 0 ∧
    total_gains_list !! 0%nat = Some 0.
Proof.
  destruct (compute_isk_inv monthly_return capital monthly_investment
              gov_interest_rate years)
    as (st' & Hrun & Hvalues & Htaxes & Hgains & _ & _
        & (Hv0 & Ht0 & Hg0) & _).
  by eexists _, _, _.
Qed.

(** X22 (tax is paid at year ends only).  In what [compute_isk] returns,
    the tax paid up to a month that does not end a year (a month whose
    number is not a multiple of 12) is the tax paid up to the month
    before. *)
Theorem compute_isk_tax_at_year_end (monthly_return capital monthly_investment
    gov_interest_rate : Qc) (years : Z) :
  ∃ isk_values tax_paid_list total_gains_list : list Qc,
    compute_isk monthly_return capital monthly_investment gov_interest_rate
                years
      = Some (isk_values, tax_paid_list, total_gains_list) ∧
    ∀ (month : nat) (paid : Qc),
      (1 ≤ month ≤ Z.to_nat (years * 12))%nat →
      (month mod 12)%nat ≠ 0%nat →
      tax_paid_list !! (month - 1)%nat = Some paid →
      tax_paid_list !! month = Some paid.
Proof.
  destruct (compute_isk_inv monthly_return capital monthly_investment
              gov_interest_rate years)
    as (st' & Hrun & _ & _ & _ & _ & _ & _ & Hconst).
  eexists _, _, _. split; [exact Hrun|].
  intros [|i] paid [Hlow Hhigh] Hmod Hpaid; [lia|].
  replace (S i - 1)%nat with i in Hpaid by lia.
  by apply Hconst.
Qed.

(** One year from 1000 with 100 a month, a return of 1% a month and a
    government rate of 2%: thirteen entries, tax paid once, in month 12. *)
Example compute_isk_one_year :
  (λ '(isk_values, tax_paid_list, total_gains_list),
     (length isk_values, take 12 tax_paid_list,
      bool_decide (0 < default 0 (tax_paid_list !! 12%nat))))
    <$> compute_isk (frac 1 100) (Qc_of_Z 1000) (Qc_of_Z 100) (frac 2 100) 1
  = Some (13%nat, replicate 12 0, true).
Proof. compute_done. Qed.

(** ** The two simulations on binary64 numbers *)

Section simulations64.
Import Binary64.
Local Open Scope float_scope.
Variables (monthly_return capital monthly_investment : float).

Local Arguments Nat.modulo : simpl never.
Local Arguments Nat.div : simpl never.




Section isk64.
Variable gov_interest_rate : float.




End isk64.






End simulations64.




(** No years at all: one entry in each list, and no tax. *)
Example compute_af_no_years :
  Binary64.compute_af 0.5 1000 100 Binary64.lit_0_3 0
  = Some ([1000], [0], [0])%float.
Proof. reflexivity. Qed.

(** Twelve monthly investments of [float("33.33")] on a capital of 1000:
    what has been invested is 1399.9599999999991, which is not
    [1000 + 12 * 33.33]. *)
Example invested_after_rounds :
  let monthly_investment := 0x1.0aa3d70a3d70ap+5%float in
  Binary64.invested_after 1000 monthly_investment 12
    = 0x1.5dfd70a3d70ap+10%float ∧
  (Binary64.invested_after 1000 monthly_investment 12
     =? 1000 + 12 * monthly_investment)%float = false.
Proof. cbv zeta. split; reflexivity. Qed.
